(** * The Ollama / OpenAI translation proxy (backend/main.py)

    A shallow embedding of the request handlers of backend/main.py and
    of the helpers they call: the prompt builder, the payload
    construction, the two streaming generators, the non-streaming
    response assembly and the model listing.

    Python values that come out of [json.loads] are values of [json];
    a [dict] is an association list in insertion order.  Exceptions are
    values of [exn]; a computation that may raise returns an [outcome].
    [json.loads], [json.dumps], [uuid.uuid4] and [time.time] belong to
    the Python library and are variables of the section [Proxy]. *)

From Stdlib Require Import ZArith List String Ascii Bool Lia Floats DecimalString.
Import ListNotations.

Set Warnings "-register-all,-inexact-float,-notation-for-abbreviation".

Local Open Scope list_scope.
Local Open Scope string_scope.
Local Open Scope Z_scope.

(** ** Text *)

Definition nl : string := String (ascii_of_nat 10) EmptyString.
Definition dquote : string := String (ascii_of_nat 34) EmptyString.

(** [str(n)] for an integer. *)
Definition str_int (n : Z) : string := NilEmpty.string_of_int (Z.to_int n).

(** [s.endswith(suffix)]: the last [len(suffix)] characters of [s] are
    [suffix]. *)
Definition endswith (s suffix : string) : bool :=
  let n := String.length s in
  let m := String.length suffix in
  (m <=? n)%nat && (substring (n - m) m s =? suffix)%string.

(** The last character of a text, if it has one. *)
Fixpoint last_char (s : string) : option ascii :=
  match s with
  | EmptyString => None
  | String c EmptyString => Some c
  | String _ s' => last_char s'
  end.

(** A text that is empty or ends in a newline: what the prompt is
    after any number of messages. *)
Definition turn_ended (s : string) : Prop :=
  s = EmptyString \/ last_char s = Some (ascii_of_nat 10).

(** ** JSON values, as Python holds them *)

Inductive json : Type :=
| JNull
| JBool (b : bool)
| JInt (n : Z)
| JFloat (f : float)
| JStr (s : string)
| JList (items : list json)
| JDict (kvs : list (string * json)).

(** [bool(v)]: what [if v:] tests. *)
Definition truthy (v : json) : bool :=
  match v with
  | JNull => false
  | JBool b => b
  | JInt n => negb (n =? 0)
  | JFloat f => negb (PrimFloat.eqb f 0%float)
  | JStr s => negb (s =? EmptyString)%string
  | JList items => match items with [] => false | _ :: _ => true end
  | JDict kvs => match kvs with [] => false | _ :: _ => true end
  end.

(** [a or b]. *)
Definition py_or (a b : json) : json := if truthy a then a else b.

(** [type(v).__name__]. *)
Definition type_name (v : json) : string :=
  match v with
  | JNull => "NoneType"
  | JBool _ => "bool"
  | JInt _ => "int"
  | JFloat _ => "float"
  | JStr _ => "str"
  | JList _ => "list"
  | JDict _ => "dict"
  end.

(** Lookup in a [dict]. *)
Fixpoint lookup (kvs : list (string * json)) (k : string) : option json :=
  match kvs with
  | [] => None
  | (k', v) :: rest => if (k' =? k)%string then Some v else lookup rest k
  end.

(** Some key [k] occurs in a dict of [v], at any depth. *)
Fixpoint has_key (k : string) (v : json) : bool :=
  match v with
  | JList items => existsb (has_key k) items
  | JDict kvs =>
      existsb (fun kv => let '(k', v') := kv in (k' =? k)%string || has_key k v') kvs
  | _ => false
  end.

(** [v[k1][k2]...] through nested dicts, when every key is there. *)
Fixpoint at_path (v : json) (path : list string) : option json :=
  match path with
  | [] => Some v
  | k :: rest =>
      match v with
      | JDict kvs =>
          match lookup kvs k with
          | Some x => at_path x rest
          | None => None
          end
      | _ => None
      end
  end.

(** A count of the upstream's answer: the integer under [key], 0 when
    the key is absent, nothing when it holds anything else. *)
Definition int_or_zero (kvs : list (string * json)) (key : string) : option Z :=
  match lookup kvs key with
  | None => Some 0
  | Some (JInt n) => Some n
  | Some _ => None
  end.

(** The keys of a dict, in order. *)
Definition keys (v : json) : list string :=
  match v with
  | JDict kvs => map fst kvs
  | _ => []
  end.

(** ** Exceptions *)

Inductive exn : Type :=
| JSONDecodeError (msg : string)
| AttributeError (msg : string)
| KeyError (msg : string)
| TypeError (msg : string)
| OverflowError (msg : string)
| UnicodeDecodeError (msg : string)
| RequestError (msg : string)
    (* httpx.RequestError and its subclasses: ConnectError,
       ConnectTimeout, ReadTimeout, ReadError, ... *)
| HTTPException (status_code : Z) (detail : string).

(** [str(e)].  For [HTTPException] this is Starlette's [__str__],
    f"{self.status_code}: {self.detail}". *)
Definition str_exn (e : exn) : string :=
  match e with
  | JSONDecodeError msg | AttributeError msg | KeyError msg | TypeError msg
  | OverflowError msg | UnicodeDecodeError msg | RequestError msg => msg
  | HTTPException status detail => str_int status ++ ": " ++ detail
  end.

(** [isinstance(e, httpx.RequestError)]. *)
Definition is_RequestError (e : exn) : bool :=
  match e with
  | RequestError _ => true
  | _ => false
  end.

Inductive outcome (A : Type) : Type :=
| Ok (a : A)
| Raise (e : exn).
Arguments Ok {A} a.
Arguments Raise {A} e.

Definition bind {A B : Type} (m : outcome A) (k : A -> outcome B) : outcome B :=
  match m with
  | Ok a => k a
  | Raise e => Raise e
  end.

Notation "x <- m ;; k" := (bind m (fun x => k))
  (at level 61, m at next level, right associativity).

(** [v.get(key, default)]: only a dict has the method. *)
Definition get (v : json) (key : string) (default : json) : outcome json :=
  match v with
  | JDict kvs =>
      Ok (match lookup kvs key with Some x => x | None => default end)
  | _ =>
      Raise (AttributeError
               ("'" ++ type_name v ++ "' object has no attribute 'get'"))
  end.

(** [v[key]] for a text key (messages as CPython 3.11 and later prints
    them). *)
Definition getitem (v : json) (key : string) : outcome json :=
  match v with
  | JDict kvs =>
      match lookup kvs key with
      | Some x => Ok x
      | None => Raise (KeyError ("'" ++ key ++ "'"))
      end
  | JList _ =>
      Raise (TypeError "list indices must be integers or slices, not str")
  | JStr _ =>
      Raise (TypeError "string indices must be integers, not 'str'")
  | _ =>
      Raise (TypeError ("'" ++ type_name v ++ "' object is not subscriptable"))
  end.

(** [for x in v]: the items the loop visits.  A dict yields its keys, a
    text its characters. *)
Fixpoint chars (s : string) : list json :=
  match s with
  | EmptyString => []
  | String c s' => JStr (String c EmptyString) :: chars s'
  end.

Definition iterate (v : json) : outcome (list json) :=
  match v with
  | JList items => Ok items
  | JDict kvs => Ok (map (fun kv => JStr (fst kv)) kvs)
  | JStr s => Ok (chars s)
  | _ => Raise (TypeError ("'" ++ type_name v ++ "' object is not iterable"))
  end.

(** [float(n)]: the nearest binary64 value, or [OverflowError]. *)
Definition float_of_int (n : Z) : outcome float :=
  let f := SF2Prim (binary_normalize prec emax n 0 false) in
  if PrimFloat.is_infinity f
  then Raise (OverflowError "int too large to convert to float")
  else Ok f.

Definition int_of_bool (b : bool) : Z := if b then 1 else 0.

(** [a + b] on decoded JSON values.  [bool] is a subclass of [int]. *)
Definition py_add (a b : json) : outcome json :=
  let unsupported :=
    Raise (TypeError ("unsupported operand type(s) for +: '" ++ type_name a
                      ++ "' and '" ++ type_name b ++ "'")) in
  let as_int v :=
    match v with
    | JInt n => Some n
    | JBool c => Some (int_of_bool c)
    | _ => None
    end in
  let concat_error kind :=
    Raise (TypeError ("can only concatenate " ++ kind ++ " (not " ++ dquote
                      ++ type_name b ++ dquote ++ ") to " ++ kind)) in
  match a with
  | JStr s =>
      match b with
      | JStr t => Ok (JStr (s ++ t))
      | _ => concat_error "str"
      end
  | JList l =>
      match b with
      | JList r => Ok (JList (l ++ r)%list)
      | _ => concat_error "list"
      end
  | JFloat x =>
      match b with
      | JFloat y => Ok (JFloat (x + y)%float)
      | _ =>
          match as_int b with
          | Some n => y <- float_of_int n ;; Ok (JFloat (x + y)%float)
          | None => unsupported
          end
      end
  | _ =>
      match as_int a with
      | Some m =>
          match b with
          | JFloat y => x <- float_of_int m ;; Ok (JFloat (x + y)%float)
          | _ =>
              match as_int b with
              | Some n => Ok (JInt (m + n))
              | None => unsupported
              end
          end
      | None => unsupported
      end
  end.

(** ** Request models (pydantic) *)

Record Message : Type := { role : string; content : string }.

(** A field typed [Optional[T]] holds [None] or a [T]. *)
Definition opt (A : Type) (inj : A -> json) (v : option A) : json :=
  match v with
  | Some a => inj a
  | None => JNull
  end.

Record ChatCompletionRequest : Type := {
  model : string;
  messages : list Message;
  stream : option bool;
  temperature : option float;
  max_tokens : option Z;
  top_p : option float;
  frequency_penalty : option float;
  presence_penalty : option float
}.

Record CompletionRequest : Type := {
  c_model : string;
  c_prompt : string;
  c_stream : option bool;
  c_temperature : option float;
  c_max_tokens : option Z
}.

(** A keyword argument of a model constructor: left out, or given (and
    then possibly [None]).  A field left out takes the default of its
    class attribute. *)
Definition field {A : Type} (given : option A) (default : A) : A :=
  match given with
  | Some a => a
  | None => default
  end.

Definition new_ChatCompletionRequest
    (model : string) (messages : list Message)
    (stream : option (option bool))
    (temperature : option (option float))
    (max_tokens : option (option Z))
    (top_p frequency_penalty presence_penalty : option (option float))
  : ChatCompletionRequest :=
  {| model := model;
     messages := messages;
     stream := field stream (Some false);
     temperature := field temperature (Some 0.7%float);
     max_tokens := field max_tokens (Some 1000);
     top_p := field top_p (Some 1.0%float);
     frequency_penalty := field frequency_penalty (Some 0.0%float);
     presence_penalty := field presence_penalty (Some 0.0%float) |}.

Definition new_CompletionRequest
    (model prompt : string)
    (stream : option (option bool))
    (temperature : option (option float))
    (max_tokens : option (option Z))
  : CompletionRequest :=
  {| c_model := model;
     c_prompt := prompt;
     c_stream := field stream (Some false);
     c_temperature := field temperature (Some 0.7%float);
     c_max_tokens := field max_tokens (Some 1000) |}.

(** ** Prompt builder *)

(** The text one message adds to the prompt. *)
Definition message_text (m : Message) : string :=
  if (role m =? "system")%string then "System: " ++ content m ++ nl ++ nl
  else if (role m =? "user")%string then "Human: " ++ content m ++ nl ++ nl
  else if (role m =? "assistant")%string then "Assistant: " ++ content m ++ nl ++ nl
  else EmptyString.

(** The [for] loop of [convert_messages_to_ollama_prompt], from the
    prompt accumulated so far. *)
Fixpoint add_messages (prompt : string) (ms : list Message) : string :=
  match ms with
  | [] => prompt
  | m :: rest => add_messages (prompt ++ message_text m) rest
  end.

Definition convert_messages_to_ollama_prompt (ms : list Message) : string :=
  let prompt := add_messages EmptyString ms in
  if negb (endswith prompt "Assistant:") then prompt ++ "Assistant:" else prompt.

(** ** What a handler sees of the world *)

(** The process draws uuids and reads the clock; [ids_drawn] and
    [clock_reads] count how often it has done so. *)
Record world : Type := { ids_drawn : nat; clock_reads : nat }.

(** The upstream's answer to a request that is read whole
    ([client.get], [client.post]). *)
Inductive http_reply : Type :=
| Fails (e : exn)
| Replies (status_code : Z) (text : string).

(** How the body of a streamed answer ends. *)
Inductive stream_end : Type :=
| EOF
| ReadFault (e : exn).

(** The upstream's answer to [client.stream]: the call raises, or it
    gives a status, the body as [aread().decode()] returns it, and the
    body as [aiter_lines()] delivers it. *)
Inductive stream_reply : Type :=
| StreamFails (e : exn)
| StreamReplies (status_code : Z) (body : outcome string)
                (lines : list string) (tail : stream_end).

Record upstream : Type := {
  api_tags : http_reply;
  api_generate : json -> http_reply;
  api_generate_stream : json -> stream_reply
}.

(** One item a streaming generator yields. *)
Inductive frame : Type :=
| Data (chunk : json)   (* f"data: {json.dumps(chunk)}\n\n" *)
| DoneLine.             (* "data: [DONE]\n\n" *)

(** A generator that has run to its end: what it yielded, how it ended,
    the upstream lines it never asked for, and the world it left. *)
Record run : Type := {
  frames : list frame;
  result : outcome unit;
  unread : list string;
  after : world
}.

(** What a handler hands to the framework. *)
Inductive response : Type :=
| Returns (body : json)
| Streams (r : run)
| Raises (e : exn).

(** The status line the client gets: an [HTTPException] carries its
    own, any other exception is the server's 500, and a streaming
    response has sent 200 before its generator starts. *)
Definition http_status (r : response) : Z :=
  match r with
  | Returns _ => 200
  | Streams _ => 200
  | Raises (HTTPException status _) => status
  | Raises _ => 500
  end.

(** How one pass through a loop body ends. *)
Inductive flow : Type := Continue | Return.

(** A generator body: yields frames, may raise, changes the world. *)
Definition gen (A : Type) : Type := world -> list frame * outcome A * world.

Definition g_ret {A : Type} (a : A) : gen A := fun w => ([], Ok a, w).

Definition g_bind {A B : Type} (m : gen A) (k : A -> gen B) : gen B :=
  fun w =>
    let '(fs, r, w1) := m w in
    match r with
    | Ok a => let '(fs', r', w2) := k a w1 in ((fs ++ fs')%list, r', w2)
    | Raise e => (fs, Raise e, w1)
    end.

Definition lift {A : Type} (o : outcome A) : gen A := fun w => ([], o, w).

Definition yield (mk : world -> frame * world) : gen unit :=
  fun w => let '(f, w1) := mk w in ([f], Ok tt, w1).

Definition yield_text (f : frame) : gen unit := fun w => ([f], Ok tt, w).

(** [try: body  except json.JSONDecodeError: continue]. *)
Definition except_JSONDecodeError_continue (body : gen flow) : gen flow :=
  fun w =>
    let '(fs, r, w1) := body w in
    match r with
    | Raise (JSONDecodeError _) => (fs, Ok Continue, w1)
    | _ => (fs, r, w1)
    end.

Notation "x <~ m ;; k" := (g_bind m (fun x => k))
  (at level 61, m at next level, right associativity).
Notation "m ;;; k" := (g_bind m (fun _ => k))
  (at level 61, right associativity).

(** [async for line in response.aiter_lines(): body(line)]. *)
Fixpoint for_lines (body : string -> gen flow)
    (lines : list string) (tail : stream_end) (w : world) : run :=
  match lines with
  | [] =>
      {| frames := [];
         result := match tail with EOF => Ok tt | ReadFault e => Raise e end;
         unread := [];
         after := w |}
  | line :: rest =>
      let '(fs, r, w1) := body line w in
      match r with
      | Ok Continue =>
          let t := for_lines body rest tail w1 in
          {| frames := (fs ++ frames t)%list; result := result t;
             unread := unread t; after := after t |}
      | Ok Return =>
          {| frames := fs; result := Ok tt; unread := rest; after := w1 |}
      | Raise e =>
          {| frames := fs; result := Raise e; unread := rest; after := w1 |}
      end
  end.

(** [finish_reason] of the first choice of a chunk. *)
Definition finish_reason_of (chunk : json) : option json :=
  match chunk with
  | JDict kvs =>
      match lookup kvs "choices" with
      | Some (JList (JDict choice :: _)) => lookup choice "finish_reason"
      | _ => None
      end
  | _ => None
  end.

Definition is_done_line (f : frame) : bool :=
  match f with
  | DoneLine => true
  | Data _ => false
  end.

(** A chunk whose [finish_reason] is [r]. *)
Definition has_finish_reason (r : json -> bool) (f : frame) : bool :=
  match f with
  | Data chunk =>
      match finish_reason_of chunk with
      | Some v => r v
      | None => false
      end
  | DoneLine => false
  end.

Definition is_text (t : string) (v : json) : bool :=
  match v with
  | JStr s => (s =? t)%string
  | _ => false
  end.

Definition is_null (v : json) : bool :=
  match v with
  | JNull => true
  | _ => false
  end.

Definition is_stop_chunk : frame -> bool := has_finish_reason (is_text "stop").
Definition is_error_chunk : frame -> bool := has_finish_reason (is_text "error").
Definition is_open_chunk : frame -> bool := has_finish_reason is_null.

Definition count (p : frame -> bool) (fs : list frame) : nat :=
  List.length (filter p fs).

(** Frames, all of them chunks whose [finish_reason] is null. *)
Definition all_open (fs : list frame) : Prop := forallb is_open_chunk fs = true.

(** Frames with no terminator line among them. *)
Definition no_done_line (fs : list frame) : Prop :=
  forallb (fun f => negb (is_done_line f)) fs = true.

(** Frames with neither a terminator line nor a stop chunk among them. *)
Definition unclosed (fs : list frame) : Prop :=
  forallb (fun f => negb (is_done_line f) && negb (is_stop_chunk f)) fs = true.

(** A streamed answer whose status is not 200. *)
Definition error_status (reply : stream_reply) : bool :=
  match reply with
  | StreamFails _ => false
  | StreamReplies status _ _ _ => negb (status =? 200)
  end.

(** What [json.loads] does with a text: it returns a value, or raises
    [JSONDecodeError] with a message. *)
Inductive decoded : Type :=
| Decoded (v : json)
| Malformed (msg : string).

(** ** The program *)

Section Proxy.

Variable json_loads : string -> decoded.

Definition loads (s : string) : outcome json :=
  match json_loads s with
  | Decoded v => Ok v
  | Malformed msg => Raise (JSONDecodeError msg)
  end.

Variable json_dumps : json -> string.

(** [uuid.uuid4().hex] at the k-th draw, [int(time.time())] at the
    k-th reading. *)
Variable uuid4_hex : nat -> string.
Variable unix_time : nat -> Z.

Definition fresh_id (pre : string) (w : world) : string :=
  pre ++ substring 0 8 (uuid4_hex (ids_drawn w)).

Definition now (w : world) : Z := unix_time (clock_reads w).

Definition tick (w : world) : world :=
  {| ids_drawn := S (ids_drawn w); clock_reads := S (clock_reads w) |}.

(** The text a frame puts on the wire. *)
Definition sse_text (f : frame) : string :=
  match f with
  | Data chunk => "data: " ++ json_dumps chunk ++ nl ++ nl
  | DoneLine => "data: [DONE]" ++ nl ++ nl
  end.

Definition create_chat_completion_response
    (content : json) (model : string) (finish_reason : string) (usage : json)
    (w : world) : json * world :=
  (JDict [("id", JStr (fresh_id "chatcmpl-" w));
          ("object", JStr "chat.completion");
          ("created", JInt (now w));
          ("model", JStr model);
          ("choices",
           JList [JDict [("index", JInt 0);
                         ("message", JDict [("role", JStr "assistant");
                                            ("content", content)]);
                         ("finish_reason", JStr finish_reason)]]);
          ("usage",
           py_or usage (JDict [("prompt_tokens", JInt 0);
                               ("completion_tokens", JInt 0);
                               ("total_tokens", JInt 0)]))],
   tick w).

Definition stream_chunk
    (content : json) (model : string) (finish_reason : option string)
    (w : world) : json :=
  JDict [("id", JStr (fresh_id "chatcmpl-" w));
         ("object", JStr "chat.completion.chunk");
         ("created", JInt (now w));
         ("model", JStr model);
         ("choices",
          JList [JDict [("index", JInt 0);
                        ("delta", if truthy content
                                  then JDict [("content", content)]
                                  else JDict []);
                        ("finish_reason", opt string JStr finish_reason)]])].

Definition create_stream_chunk
    (content : json) (model : string) (finish_reason : option string)
    (w : world) : frame * world :=
  (Data (stream_chunk content model finish_reason w), tick w).


(** *** Payloads *)

Definition chat_payload (request : ChatCompletionRequest) (prompt : string) : json :=
  JDict [("model", JStr (model request));
         ("prompt", JStr prompt);
         ("stream", opt bool JBool (stream request));
         ("options",
          JDict [("temperature", opt float JFloat (temperature request));
                 ("num_predict", opt Z JInt (max_tokens request));
                 ("top_p", opt float JFloat (top_p request))])].

Definition completion_payload (request : CompletionRequest) : json :=
  JDict [("model", JStr (c_model request));
         ("prompt", JStr (c_prompt request));
         ("stream", opt bool JBool (c_stream request));
         ("options",
          JDict [("temperature", opt float JFloat (c_temperature request));
                 ("num_predict", opt Z JInt (c_max_tokens request))])].

(** The payload [chat_completions] sends for a request. *)
Definition sent_by_chat (request : ChatCompletionRequest) : json :=
  chat_payload request (convert_messages_to_ollama_prompt (messages request)).

(** *** /v1/chat/completions, streaming *)

(** The body of the [async for] of [chat_completions.generate_stream],
    for one line. *)
Definition chat_on_line (model line : string) : gen flow :=
  if (line =? EmptyString)%string then g_ret Continue
  else
    except_JSONDecodeError_continue
      (data <~ lift (loads line) ;;
       r <~ lift (get data "response" JNull) ;;
       (if truthy r
        then text <~ lift (getitem data "response") ;;
             yield (create_stream_chunk text model None)
        else g_ret tt) ;;;
       d <~ lift (get data "done" JNull) ;;
       if truthy d
       then yield (create_stream_chunk (JStr EmptyString) model (Some "stop")) ;;;
            yield_text DoneLine ;;;
            g_ret Return
       else g_ret Continue).

(** [except Exception as e] of the generator: one more chunk. *)
Definition error_chunk_after (model : string) (t : run) (e : exn) : run :=
  let '(f, w1) :=
    create_stream_chunk (JStr ("Error: " ++ str_exn e)) model (Some "error") (after t) in
  {| frames := (frames t ++ [f])%list; result := Ok tt; unread := unread t; after := w1 |}.

Definition chat_generate_stream
    (request : ChatCompletionRequest) (ollama_payload : json)
    (up : upstream) (w : world) : run :=
  let attempt :=
    match api_generate_stream up ollama_payload with
    | StreamFails e =>
        {| frames := []; result := Raise e; unread := []; after := w |}
    | StreamReplies status body lines tail =>
        if negb (status =? 200)
        then
          match body with
          | Ok error_msg =>
              let '(f, w1) :=
                create_stream_chunk (JStr ("Error: " ++ error_msg))
                                    (model request) (Some "error") w in
              {| frames := [f]; result := Ok tt; unread := lines; after := w1 |}
          | Raise e =>
              {| frames := []; result := Raise e; unread := lines; after := w |}
          end
        else for_lines (chat_on_line (model request)) lines tail w
    end in
  match result attempt with
  | Ok _ => attempt
  | Raise e => error_chunk_after (model request) attempt e
  end.

(** *** /v1/completions, streaming *)

Definition completion_chunk (text : json) (model : string) (w : world)
  : frame * world :=
  (Data (JDict [("id", JStr (fresh_id "cmpl-" w));
                ("object", JStr "text_completion");
                ("created", JInt (now w));
                ("model", JStr model);
                ("choices",
                 JList [JDict [("text", text);
                               ("index", JInt 0);
                               ("finish_reason", JNull)]])]),
   tick w).

Definition completions_on_line (model line : string) : gen flow :=
  if (line =? EmptyString)%string then g_ret Continue
  else
    except_JSONDecodeError_continue
      (data <~ lift (loads line) ;;
       r <~ lift (get data "response" JNull) ;;
       (if truthy r
        then text <~ lift (getitem data "response") ;;
             yield (completion_chunk text model)
        else g_ret tt) ;;;
       d <~ lift (get data "done" JNull) ;;
       if truthy d
       then yield_text DoneLine ;;;
            g_ret Return
       else g_ret Continue).

Definition completions_generate_stream
    (request : CompletionRequest) (ollama_payload : json)
    (up : upstream) (w : world) : run :=
  match api_generate_stream up ollama_payload with
  | StreamFails e =>
      {| frames := []; result := Raise e; unread := []; after := w |}
  | StreamReplies _ _ lines tail =>
      for_lines (completions_on_line (c_model request)) lines tail w
  end.

(** *** The handlers *)

(** [client.post(...)] or [client.get(...)] followed by the status
    check of the handler. *)
Definition checked (reply : http_reply) (detail : string) : outcome string :=
  match reply with
  | Fails e => Raise e
  | Replies status text =>
      if negb (status =? 200) then Raise (HTTPException status detail)
      else Ok text
  end.

(** The three entries of [usage], in the order Python evaluates them. *)
Definition usage_of (ollama_response : json) : outcome json :=
  p <- get ollama_response "prompt_eval_count" (JInt 0) ;;
  c <- get ollama_response "eval_count" (JInt 0) ;;
  p' <- get ollama_response "prompt_eval_count" (JInt 0) ;;
  c' <- get ollama_response "eval_count" (JInt 0) ;;
  total <- py_add p' c' ;;
  Ok (JDict [("prompt_tokens", p);
             ("completion_tokens", c);
             ("total_tokens", total)]).

(** [except Exception as e: raise HTTPException(500, str(e))]. *)
Definition except_Exception_500 (r : outcome json * world) : response * world :=
  match r with
  | (Ok body, w1) => (Returns body, w1)
  | (Raise e, w1) => (Raises (HTTPException 500 (str_exn e)), w1)
  end.

Definition chat_completions
    (request : ChatCompletionRequest) (up : upstream) (w : world)
  : response * world :=
  let prompt := convert_messages_to_ollama_prompt (messages request) in
  let ollama_payload := chat_payload request prompt in
  if truthy (opt bool JBool (stream request))
  then
    let r := chat_generate_stream request ollama_payload up w in
    (Streams r, after r)
  else
    except_Exception_500
      match
        text <- checked (api_generate up ollama_payload)
                        "Failed to generate response" ;;
        ollama_response <- loads text ;;
        usage <- usage_of ollama_response ;;
        content <- get ollama_response "response" (JStr EmptyString) ;;
        Ok (content, usage)
      with
      | Ok (content, usage) =>
          let '(body, w1) :=
            create_chat_completion_response content (model request) "stop" usage w in
          (Ok body, w1)
      | Raise e => (Raise e, w)
      end.

(** The dict [completions] returns draws its id and reads the clock
    before it looks into the upstream's answer. *)
Definition completions
    (request : CompletionRequest) (up : upstream) (w : world)
  : response * world :=
  let ollama_payload := completion_payload request in
  if truthy (opt bool JBool (c_stream request))
  then
    let r := completions_generate_stream request ollama_payload up w in
    (Streams r, after r)
  else
    except_Exception_500
      match
        text <- checked (api_generate up ollama_payload)
                        "Failed to generate response" ;;
        loads text
      with
      | Ok ollama_response =>
          (content <- get ollama_response "response" (JStr EmptyString) ;;
           usage <- usage_of ollama_response ;;
           Ok (JDict [("id", JStr (fresh_id "cmpl-" w));
                      ("object", JStr "text_completion");
                      ("created", JInt (now w));
                      ("model", JStr (c_model request));
                      ("choices",
                       JList [JDict [("text", content);
                                     ("index", JInt 0);
                                     ("finish_reason", JStr "stop")]]);
                      ("usage", usage)]),
           tick w)
      | Raise e => (Raise e, w)
      end.

(** *** /v1/models *)

Definition read_clock (w : world) : world :=
  {| ids_drawn := ids_drawn w; clock_reads := S (clock_reads w) |}.

(** The [for model in ollama_models] loop. *)
Fixpoint model_entries (ollama_models : list json) (w : world)
  : outcome (list json) * world :=
  match ollama_models with
  | [] => (Ok [], w)
  | m :: rest =>
      match getitem m "name" with
      | Raise e => (Raise e, w)
      | Ok name =>
          let entry := JDict [("id", name);
                              ("object", JStr "model");
                              ("created", JInt (now w));
                              ("owned_by", JStr "ollama")] in
          match model_entries rest (read_clock w) with
          | (Ok entries, w1) => (Ok (entry :: entries), w1)
          | (Raise e, w1) => (Raise e, w1)
          end
      end
  end.

Definition list_models (up : upstream) (w : world) : response * world :=
  let attempt :=
    match
      text <- checked (api_tags up) "Failed to fetch models from Ollama" ;;
      answer <- loads text ;;
      ollama_models <- get answer "models" (JList []) ;;
      iterate ollama_models
    with
    | Ok ollama_models =>
        match model_entries ollama_models w with
        | (Ok openai_models, w1) =>
            (Ok (JDict [("object", JStr "list");
                        ("data", JList openai_models)]), w1)
        | (Raise e, w1) => (Raise e, w1)
        end
    | Raise e => (Raise e, w)
    end in
  match attempt with
  | (Ok body, w1) => (Returns body, w1)
  | (Raise e, w1) =>
      if is_RequestError e
      then (Raises (HTTPException 503 ("Ollama service unavailable: " ++ str_exn e)), w1)
      else (Raises e, w1)
  end.

(** *** Kinds of upstream lines *)

(** [d.get(key)] of a dict. *)
Definition field_or_null (kvs : list (string * json)) (key : string) : json :=
  match lookup kvs key with
  | Some x => x
  | None => JNull
  end.

(** A line the loop reads past [if line:] and [json.loads] accepts. *)
Definition decodes (line : string) : bool :=
  negb (line =? EmptyString)%string
  && match json_loads line with
     | Decoded _ => true
     | Malformed _ => false
     end.

(** A non-blank line holding a JSON object whose [done] is true (or
    any other value Python takes for true). *)
Definition done_event (line : string) : bool :=
  negb (line =? EmptyString)%string
  && match json_loads line with
     | Decoded (JDict kvs) => truthy (field_or_null kvs "done")
     | _ => false
     end.

(** A line that is blank, is no JSON, or holds a JSON object. *)
Definition blank_malformed_or_object (line : string) : bool :=
  (line =? EmptyString)%string
  || match json_loads line with
     | Decoded (JDict _) => true
     | Decoded _ => false
     | Malformed _ => true
     end.

(** What the chat generator does with a decoded object. *)
Definition chat_event (model : string) (kvs : list (string * json)) (w : world)
  : list frame * outcome flow * world :=
  let r := field_or_null kvs "response" in
  let '(fs, w1) :=
    if truthy r then ([Data (stream_chunk r model None w)], tick w) else ([], w) in
  if truthy (field_or_null kvs "done")
  then ((fs ++ [Data (stream_chunk (JStr EmptyString) model (Some "stop") w1);
                DoneLine])%list,
        Ok Return, tick w1)
  else (fs, Ok Continue, w1).

(** What the completions generator does with a decoded object. *)
Definition completions_event (model : string) (kvs : list (string * json)) (w : world)
  : list frame * outcome flow * world :=
  let r := field_or_null kvs "response" in
  let '(fs, w1) :=
    if truthy r then ([fst (completion_chunk r model w)], tick w) else ([], w) in
  if truthy (field_or_null kvs "done")
  then ((fs ++ [DoneLine])%list, Ok Return, w1)
  else (fs, Ok Continue, w1).

(** What the loop needs to know of its body.  [terminal] tells the
    frames a body may close its stream with. *)
Definition line_behaviour
    (terminal : list frame -> Prop) (body : string -> gen flow) : Prop :=
  forall line w fs r w1,
    body line w = (fs, r, w1) ->
    match r with
    | Ok Continue => all_open fs /\ done_event line = false
    | Ok Return =>
        done_event line = true
        /\ exists pre t, fs = (pre ++ t)%list /\ all_open pre /\ terminal t
    | Raise _ => all_open fs /\ blank_malformed_or_object line = false
    end
    /\ (decodes line = false -> (fs, r, w1) = ([], Ok Continue, w)).

(** The frames that close a chat stream, and a completions stream. *)
Definition chat_terminal (model : string) (t : list frame) : Prop :=
  exists w, t = [Data (stream_chunk (JStr EmptyString) model (Some "stop") w); DoneLine].

Definition completions_terminal (t : list frame) : Prop := t = [DoneLine].

(** A streamed answer none of whose lines is a done event (or no
    answer at all). *)
Definition without_done (reply : stream_reply) : bool :=
  match reply with
  | StreamFails _ => true
  | StreamReplies _ _ lines _ => negb (existsb done_event lines)
  end.

(** The same answer, had the upstream sent only the lines that decode. *)
Definition decodable_only (up : upstream) : upstream :=
  {| api_tags := api_tags up;
     api_generate := api_generate up;
     api_generate_stream := fun payload =>
       match api_generate_stream up payload with
       | StreamFails e => StreamFails e
       | StreamReplies status body lines tail =>
           StreamReplies status body (filter decodes lines) tail
       end |}.

End Proxy.

(** ** The remaining endpoints *)

(** [GET /]: a fixed description of the service. *)
Definition root : response :=
  Returns (JDict [("name", JStr "Ollama OpenAI Compatible API");
                  ("version", JStr "2.0.0");
                  ("description", JStr "OpenAI-compatible proxy for Ollama");
                  ("endpoints", JList [JStr "/v1/models";
                                       JStr "/v1/chat/completions";
                                       JStr "/v1/completions";
                                       JStr "/health"]);
                  ("status", JStr "running")]).

(** [GET /health], given the upstream's answer to [GET /api/version].
    With a status other than 200 the function falls off its end and
    returns [None]. *)
Definition health_check (api_version : http_reply) : response :=
  match api_version with
  | Replies status _ =>
      if status =? 200
      then Returns (JDict [("status", JStr "healthy");
                           ("ollama", JStr "connected");
                           ("api", JStr "openai-compatible")])
      else Returns JNull
  | Fails e =>
      Returns (JDict [("status", JStr "unhealthy");
                      ("ollama", JStr "disconnected");
                      ("error", JStr (str_exn e))])
  end.

(** ** What the loops amount to *)

(** [n] chunks later. *)
Fixpoint ticks (n : nat) (w : world) : world :=
  match n with
  | O => w
  | S k => ticks k (tick w)
  end.

(** One frame per value, each made in the world the one before left. *)
Fixpoint numbered (mk : json -> world -> frame) (vs : list json) (w : world)
  : list frame :=
  match vs with
  | [] => []
  | v :: rest => mk v w :: numbered mk rest (tick w)
  end.

(** How the reading of a streamed body ends: at a done event, at the
    end of the body, or in an exception. *)
Inductive ending : Type :=
| Closed
| Exhausted
| Faulted (e : exn).

Section Reading.

Variable json_loads : string -> decoded.

(** The [response] values a generator forwards: the ones Python takes
    for true, of the objects it reads before it stops. *)
Fixpoint responses (lines : list string) : list json :=
  match lines with
  | [] => []
  | line :: rest =>
      if (line =? EmptyString)%string then responses rest
      else
        match json_loads line with
        | Malformed _ => responses rest
        | Decoded (JDict kvs) =>
            let r := field_or_null kvs "response" in
            ((if truthy r then [r] else [])
             ++ (if truthy (field_or_null kvs "done") then [] else responses rest))%list
        | Decoded _ => []
        end
  end.

(** Where and how the reading stops. *)
Fixpoint how_it_ends (lines : list string) (tail : stream_end) : ending :=
  match lines with
  | [] =>
      match tail with
      | EOF => Exhausted
      | ReadFault e => Faulted e
      end
  | line :: rest =>
      if (line =? EmptyString)%string then how_it_ends rest tail
      else
        match json_loads line with
        | Malformed _ => how_it_ends rest tail
        | Decoded (JDict kvs) =>
            if truthy (field_or_null kvs "done") then Closed else how_it_ends rest tail
        | Decoded v =>
            Faulted (AttributeError ("'" ++ type_name v
                                     ++ "' object has no attribute 'get'"))
        end
  end.

End Reading.

(** The frames that are chunks. *)
Definition is_data (f : frame) : bool := negb (is_done_line f).

(** The text a chunk carries: [choices[0].delta.content] of a chat
    chunk. *)
Definition delta_content (f : frame) : option json :=
  match f with
  | Data (JDict kvs) =>
      match lookup kvs "choices" with
      | Some (JList (choice :: _)) => at_path choice ["delta"; "content"]
      | _ => None
      end
  | _ => None
  end.

(** [choices[0]] of a response body. *)
Definition first_choice (body : json) : option json :=
  match at_path body ["choices"] with
  | Some (JList (choice :: _)) => Some choice
  | _ => None
  end.

(** The names of the models of an upstream listing, when every entry
    is an object with a [name]. *)
Fixpoint names_of (ollama_models : list json) : option (list json) :=
  match ollama_models with
  | [] => Some []
  | JDict kvs :: rest =>
      match lookup kvs "name", names_of rest with
      | Some name, Some names => Some (name :: names)
      | _, _ => None
      end
  | _ :: _ => None
  end.

(** The listing [list_models] answers with, for the given names, the
    k-th entry stamped with the k-th reading of the clock. *)
Fixpoint listed (unix_time : nat -> Z) (names : list json) (reads : nat) : list json :=
  match names with
  | [] => []
  | name :: rest =>
      JDict [("id", name);
             ("object", JStr "model");
             ("created", JInt (unix_time reads));
             ("owned_by", JStr "ollama")]
      :: listed unix_time rest (S reads)
  end.

(** An exception of Python itself: neither an [HTTPException] nor a
    fault of the connection. *)
Definition builtin (e : exn) : bool :=
  match e with
  | HTTPException _ _ | RequestError _ => false
  | _ => true
  end.

(** The messages the prompt builder has a turn for. *)
Definition known_role (m : Message) : bool :=
  (role m =? "system")%string || (role m =? "user")%string
  || (role m =? "assistant")%string.

(** A chat request with other penalties. *)
Definition with_penalties (request : ChatCompletionRequest)
    (frequency presence : option float) : ChatCompletionRequest :=
  {| model := model request;
     messages := messages request;
     stream := stream request;
     temperature := temperature request;
     max_tokens := max_tokens request;
     top_p := top_p request;
     frequency_penalty := frequency;
     presence_penalty := presence |}.

(** Why the body of an answer cannot be used as an object: the text of
    the exception that [response.json()] or the first [.get] raises. *)
Definition answer_error (d : decoded) : option string :=
  match d with
  | Malformed msg => Some msg
  | Decoded (JDict _) => None
  | Decoded v => Some ("'" ++ type_name v ++ "' object has no attribute 'get'")
  end.

(** ** A concrete library, for evaluating the program *)

(** A decoder given by a table: the listed texts decode to their value,
    any other text is refused. *)
Definition loads_table (table : list (string * json)) (s : string) : decoded :=
  match find (fun entry => (fst entry =? s)%string) table with
  | Some (_, v) => Decoded v
  | None => Malformed "Expecting value: line 1 column 1 (char 0)"
  end.

(** [{"done": true}], [{"response": "Hi"}], [5] and the text of a full
    answer, with the values [json.loads] gives them. *)
Definition line_done : string := "{" ++ dquote ++ "done" ++ dquote ++ ": true}".
Definition line_hi : string :=
  "{" ++ dquote ++ "response" ++ dquote ++ ": " ++ dquote ++ "Hi" ++ dquote ++ "}".
Definition line_five : string := "5".
Definition text_answer : string :=
  "{" ++ dquote ++ "response" ++ dquote ++ ": " ++ dquote ++ "Hi" ++ dquote ++ ", "
      ++ dquote ++ "prompt_eval_count" ++ dquote ++ ": 5, "
      ++ dquote ++ "eval_count" ++ dquote ++ ": 2}".

Definition sample_loads : string -> decoded :=
  loads_table
    [(line_done, JDict [("done", JBool true)]);
     (line_hi, JDict [("response", JStr "Hi")]);
     (line_five, JInt 5);
     (text_answer, JDict [("response", JStr "Hi");
                          ("prompt_eval_count", JInt 5);
                          ("eval_count", JInt 2)])].

Definition sample_uuid (k : nat) : string := "0123456789abcdef0123456789abcdef".
Definition sample_time (k : nat) : Z := 1700000000 + Z.of_nat k.

Definition w0 : world := {| ids_drawn := 0; clock_reads := 0 |}.

(** An upstream that answers a streamed request with status 200 and
    the given lines. *)
Definition streaming (lines : list string) (tail : stream_end) : upstream :=
  {| api_tags := Fails (RequestError "All connection attempts failed");
     api_generate := fun _ => Fails (RequestError "All connection attempts failed");
     api_generate_stream := fun _ => StreamReplies 200 (Ok EmptyString) lines tail |}.

(** An upstream that answers every request with the given status and
    body; streamed, the body is one line. *)
Definition answering (status : Z) (text : string) : upstream :=
  {| api_tags := Replies status text;
     api_generate := fun _ => Replies status text;
     api_generate_stream := fun _ => StreamReplies status (Ok text) [text] EOF |}.

(** An upstream nobody listens at. *)
Definition unreachable (msg : string) : upstream :=
  {| api_tags := Fails (RequestError msg);
     api_generate := fun _ => Fails (RequestError msg);
     api_generate_stream := fun _ => StreamFails (RequestError msg) |}.

Definition chat_request (streamed : bool) : ChatCompletionRequest :=
  new_ChatCompletionRequest "llama3"
    [{| role := "system"; content := "Be terse" |};
     {| role := "user"; content := "Hi" |}]
    (Some (Some streamed)) None None None None None.

Definition completion_request (streamed : bool) : CompletionRequest :=
  new_CompletionRequest "llama3" "Hi" (Some (Some streamed)) None None.

(** [{"models": [{"name": "llama3:latest"}, {"name": "phi3:mini"}]}],
    [{"models": [{"size": 1}]}] and [{"prompt_eval_count": null}], with
    the values [json.loads] gives them. *)
Definition text_tags : string :=
  "{" ++ dquote ++ "models" ++ dquote ++ ": [{" ++ dquote ++ "name" ++ dquote ++ ": "
      ++ dquote ++ "llama3:latest" ++ dquote ++ "}, {" ++ dquote ++ "name" ++ dquote
      ++ ": " ++ dquote ++ "phi3:mini" ++ dquote ++ "}]}".
Definition text_nameless : string :=
  "{" ++ dquote ++ "models" ++ dquote ++ ": [{" ++ dquote ++ "size" ++ dquote ++ ": 1}]}".
Definition text_null_count : string :=
  "{" ++ dquote ++ "prompt_eval_count" ++ dquote ++ ": null}".

Definition listing_loads : string -> decoded :=
  loads_table
    [(text_tags, JDict [("models", JList [JDict [("name", JStr "llama3:latest")];
                                          JDict [("name", JStr "phi3:mini")]])]);
     (text_nameless, JDict [("models", JList [JDict [("size", JInt 1)]])]);
     (text_null_count, JDict [("prompt_eval_count", JNull)]);
     (line_hi, JDict [("response", JStr "Hi")]);
     (line_five, JInt 5)].

(** * Properties *)

(** ** Text *)

Lemma append_nil_r (s : string) : s ++ EmptyString = s.
Proof. induction s as [|c s IH]; simpl; [reflexivity | now rewrite IH]. Qed.

Lemma append_assoc (a b c : string) : (a ++ b) ++ c = a ++ (b ++ c).
Proof. induction a as [|x a IH]; simpl; [reflexivity | now rewrite IH]. Qed.

Lemma length_append (a b : string) :
  String.length (a ++ b) = (String.length a + String.length b)%nat.
Proof. induction a as [|x a IH]; simpl; [reflexivity | now rewrite IH]. Qed.

Lemma substring_all (s : string) : substring 0 (String.length s) s = s.
Proof. induction s as [|c s IH]; simpl; [reflexivity | now rewrite IH]. Qed.

Lemma substring_skip (p t : string) (m : nat) :
  substring (String.length p) m (p ++ t) = substring 0 m t.
Proof. induction p as [|c p IH]; simpl; [reflexivity | exact IH]. Qed.

Lemma substring_split (s : string) :
  forall k, (k <= String.length s)%nat ->
  s = substring 0 k s ++ substring k (String.length s - k) s.
Proof.
  induction s as [|c s IH]; intros k Hk; simpl in *.
  - destruct k; reflexivity.
  - destruct k as [|k]; simpl.
    + now rewrite substring_all.
    + f_equal. apply IH. lia.
Qed.

Lemma endswith_append (p t : string) : endswith (p ++ t) t = true.
Proof.
  unfold endswith. rewrite length_append.
  replace (String.length p + String.length t - String.length t)%nat
    with (String.length p) by lia.
  rewrite substring_skip, substring_all, String.eqb_refl.
  rewrite andb_true_r. apply Nat.leb_le. lia.
Qed.

Lemma endswith_inv (s t : string) :
  endswith s t = true -> exists p, s = p ++ t.
Proof.
  unfold endswith. intros H. apply andb_prop in H. destruct H as [Hle Heq].
  apply Nat.leb_le in Hle. apply String.eqb_eq in Heq.
  exists (substring 0 (String.length s - String.length t) s).
  pose proof (substring_split s (String.length s - String.length t)) as Hs.
  replace (String.length s - (String.length s - String.length t))%nat
    with (String.length t) in Hs by lia.
  rewrite Heq in Hs. apply Hs. lia.
Qed.

Lemma last_char_append (p t : string) :
  t <> EmptyString -> last_char (p ++ t) = last_char t.
Proof.
  intros Ht. induction p as [|c p IH]; simpl; [reflexivity|].
  rewrite IH. destruct (p ++ t) eqn:E; [|reflexivity].
  destruct p; simpl in E; [contradiction | discriminate].
Qed.

Lemma turn_ended_not_assistant (s : string) :
  turn_ended s -> endswith s "Assistant:" = false.
Proof.
  intros [-> | Hl]; [reflexivity|].
  destruct (endswith s "Assistant:") eqn:E; [|reflexivity].
  apply endswith_inv in E. destruct E as [p ->].
  rewrite last_char_append in Hl by discriminate.
  discriminate Hl.
Qed.

Lemma turn_ended_message (s : string) (m : Message) :
  turn_ended s -> turn_ended (s ++ message_text m).
Proof.
  intros Hs. unfold message_text.
  assert (Hnl : forall a b, turn_ended (s ++ a ++ b ++ nl ++ nl)).
  { intros a b. right. rewrite <- !append_assoc.
    rewrite last_char_append by discriminate. reflexivity. }
  destruct (role m =? "system")%string; [apply Hnl|].
  destruct (role m =? "user")%string; [apply Hnl|].
  destruct (role m =? "assistant")%string; [apply Hnl|].
  now rewrite append_nil_r.
Qed.

Lemma add_messages_turn_ended (ms : list Message) :
  forall prompt, turn_ended prompt -> turn_ended (add_messages prompt ms).
Proof.
  induction ms as [|m ms IH]; intros prompt Hp; simpl; [exact Hp|].
  apply IH, turn_ended_message, Hp.
Qed.

Lemma add_messages_fold (ms : list Message) :
  forall prompt tail,
    add_messages prompt ms ++ tail
    = prompt ++ fold_right (fun m rest => message_text m ++ rest) tail ms.
Proof.
  induction ms as [|m ms IH]; intros prompt tail; simpl; [reflexivity|].
  now rewrite IH, append_assoc.
Qed.

(** ** Prompt builder *)

(** C7.  The prompt is the text of each message in order (a system
    message gives "System: {content}\n\n", a user message
    "Human: {content}\n\n", an assistant message
    "Assistant: {content}\n\n", any other role gives nothing), followed
    by "Assistant:".  It therefore always ends with "Assistant:", is
    exactly "Assistant:" for no message, and is
    "System: Be terse\n\nHuman: Hi\n\nAssistant:" for the two messages
    of the scenario.  Being a function of the message list alone, it is
    deterministic. *)
Theorem prompt_builder_spec (ms : list Message) :
  convert_messages_to_ollama_prompt ms
    = fold_right (fun m rest => message_text m ++ rest) "Assistant:" ms
  /\ endswith (convert_messages_to_ollama_prompt ms) "Assistant:" = true
  /\ (forall c, message_text {| role := "system"; content := c |}
                = "System: " ++ c ++ nl ++ nl)
  /\ (forall c, message_text {| role := "user"; content := c |}
                = "Human: " ++ c ++ nl ++ nl)
  /\ (forall c, message_text {| role := "assistant"; content := c |}
                = "Assistant: " ++ c ++ nl ++ nl)
  /\ (forall m, role m <> "system" -> role m <> "user" -> role m <> "assistant" ->
                message_text m = EmptyString)
  /\ convert_messages_to_ollama_prompt [] = "Assistant:"
  /\ convert_messages_to_ollama_prompt
       [{| role := "system"; content := "Be terse" |};
        {| role := "user"; content := "Hi" |}]
     = "System: Be terse" ++ nl ++ nl ++ "Human: Hi" ++ nl ++ nl ++ "Assistant:".
Proof.
  assert (Hform : convert_messages_to_ollama_prompt ms
                  = fold_right (fun m rest => message_text m ++ rest) "Assistant:" ms).
  { unfold convert_messages_to_ollama_prompt.
    rewrite turn_ended_not_assistant
      by (apply add_messages_turn_ended; left; reflexivity).
    simpl. now rewrite add_messages_fold. }
  split; [exact Hform|].
  split.
  { pose proof (add_messages_fold ms EmptyString "Assistant:") as Hfold.
    simpl in Hfold. rewrite Hform, <- Hfold. apply endswith_append. }
  repeat split; try reflexivity.
  intros m Hs Hu Ha. unfold message_text.
  apply String.eqb_neq in Hs, Hu, Ha. now rewrite Hs, Hu, Ha.
Qed.

Lemma prompt_builder_spec_witness :
  message_text {| role := "tool"; content := "42" |} = EmptyString
  /\ convert_messages_to_ollama_prompt
       [{| role := "tool"; content := "42" |}; {| role := "user"; content := "Hi" |}]
     = "Human: Hi" ++ nl ++ nl ++ "Assistant:".
Proof.
  destruct (prompt_builder_spec
              [{| role := "tool"; content := "42" |};
               {| role := "user"; content := "Hi" |}])
    as (Hform & _ & _ & _ & _ & Hdrop & _).
  split.
  - apply Hdrop; discriminate.
  - rewrite Hform. reflexivity.
Defined.

(** ** The stream translator *)

Lemma count_app (p : frame -> bool) (a b : list frame) :
  count p (a ++ b)%list = (count p a + count p b)%nat.
Proof. unfold count. now rewrite filter_app, length_app. Qed.

Lemma all_open_app (a b : list frame) :
  all_open a -> all_open b -> all_open (a ++ b)%list.
Proof.
  unfold all_open. intros Ha Hb. now rewrite forallb_app, Ha, Hb.
Qed.

Lemma open_chunk_plain (f : frame) :
  is_open_chunk f = true ->
  is_done_line f = false /\ is_stop_chunk f = false /\ is_error_chunk f = false.
Proof.
  unfold is_open_chunk, is_stop_chunk, is_error_chunk, has_finish_reason.
  destruct f as [chunk|]; [|discriminate].
  destruct (finish_reason_of chunk) as [v|]; [|discriminate].
  destruct v; try discriminate. now repeat split.
Qed.

Lemma all_open_count (p : frame -> bool) (fs : list frame) :
  (forall f, is_open_chunk f = true -> p f = false) ->
  all_open fs -> count p fs = 0%nat.
Proof.
  intros Hp. unfold all_open, count.
  induction fs as [|f fs IH]; simpl; [reflexivity|].
  intros H. apply andb_prop in H. destruct H as [Hf Hfs].
  rewrite (Hp f Hf). now apply IH.
Qed.

Lemma all_open_no_done (fs : list frame) : all_open fs -> no_done_line fs.
Proof.
  unfold all_open, no_done_line. induction fs as [|f fs IH]; simpl; [reflexivity|].
  intros H. apply andb_prop in H. destruct H as [Hf Hfs].
  destruct (open_chunk_plain f Hf) as [-> _]. now rewrite IH.
Qed.

Lemma all_open_unclosed (fs : list frame) : all_open fs -> unclosed fs.
Proof.
  unfold all_open, unclosed. induction fs as [|f fs IH]; simpl; [reflexivity|].
  intros H. apply andb_prop in H. destruct H as [Hf Hfs].
  destruct (open_chunk_plain f Hf) as (-> & -> & _). now rewrite IH.
Qed.

Lemma unclosed_app (a b : list frame) : unclosed a -> unclosed b -> unclosed (a ++ b)%list.
Proof. unfold unclosed. intros Ha Hb. now rewrite forallb_app, Ha, Hb. Qed.

Lemma unclosed_counts (fs : list frame) :
  unclosed fs ->
  count is_done_line fs = 0%nat /\ count is_stop_chunk fs = 0%nat /\ no_done_line fs.
Proof.
  unfold unclosed, no_done_line, count.
  induction fs as [|f fs IH]; simpl; [now repeat split|].
  intros H. apply andb_prop in H. destruct H as [Hf Hfs].
  apply andb_prop in Hf. destruct Hf as [Hd Hs].
  apply negb_true_iff in Hd, Hs. rewrite Hd, Hs. simpl. now apply IH.
Qed.

Section StreamTranslator.

Variable json_loads : string -> decoded.
Variable uuid4_hex : nat -> string.
Variable unix_time : nat -> Z.

Local Notation chat_line := (chat_on_line json_loads uuid4_hex unix_time).
Local Notation completions_line := (completions_on_line json_loads uuid4_hex unix_time).
Local Notation chunk := (stream_chunk uuid4_hex unix_time).
Local Notation is_done := (done_event json_loads).
Local Notation is_tame := (blank_malformed_or_object json_loads).

(** *** One line *)

(** Runs a loop body on a line whose decoding [H] tells. *)
Ltac run_body H :=
  unfold except_JSONDecodeError_continue, g_bind, lift, loads; rewrite H.

Lemma getitem_present (kvs : list (string * json)) (key : string) :
  truthy (field_or_null kvs key) = true ->
  getitem (JDict kvs) key = Ok (field_or_null kvs key).
Proof.
  unfold field_or_null, getitem. destruct (lookup kvs key); [reflexivity|discriminate].
Qed.

Lemma chat_line_blank (model : string) (w : world) :
  chat_line model EmptyString w = ([], Ok Continue, w).
Proof. reflexivity. Qed.

Lemma chat_line_malformed (model line msg : string) (w : world) :
  json_loads line = Malformed msg ->
  chat_line model line w = ([], Ok Continue, w).
Proof.
  intros H. unfold chat_on_line.
  destruct (line =? EmptyString)%string; [reflexivity|].
  unfold except_JSONDecodeError_continue, g_bind, lift, loads. now rewrite H.
Qed.

Lemma chat_line_object (model line : string) (kvs : list (string * json)) (w : world) :
  line <> EmptyString ->
  json_loads line = Decoded (JDict kvs) ->
  chat_line model line w = chat_event uuid4_hex unix_time model kvs w.
Proof.
  intros Hne H. unfold chat_on_line, chat_event.
  apply String.eqb_neq in Hne. rewrite Hne.
  unfold except_JSONDecodeError_continue, g_bind, lift, loads. rewrite H.
  cbn [get]. fold (field_or_null kvs "response"). fold (field_or_null kvs "done").
  destruct (truthy (field_or_null kvs "response")) eqn:Hr.
  - rewrite (getitem_present _ _ Hr).
    destruct (truthy (field_or_null kvs "done")); reflexivity.
  - destruct (truthy (field_or_null kvs "done")); reflexivity.
Qed.

Lemma chat_line_other (model line : string) (v : json) (w : world) :
  line <> EmptyString ->
  json_loads line = Decoded v ->
  (forall kvs, v <> JDict kvs) ->
  chat_line model line w
  = ([], Raise (AttributeError ("'" ++ type_name v
                                 ++ "' object has no attribute 'get'")), w).
Proof.
  intros Hne H Hv. unfold chat_on_line.
  apply String.eqb_neq in Hne. rewrite Hne.
  unfold except_JSONDecodeError_continue, g_bind, lift, loads. rewrite H.
  destruct v; try reflexivity. now elim (Hv kvs).
Qed.

Lemma completions_line_malformed (model line msg : string) (w : world) :
  json_loads line = Malformed msg ->
  completions_line model line w = ([], Ok Continue, w).
Proof.
  intros H. unfold completions_on_line.
  destruct (line =? EmptyString)%string; [reflexivity|].
  unfold except_JSONDecodeError_continue, g_bind, lift, loads. now rewrite H.
Qed.

Lemma completions_line_object (model line : string) (kvs : list (string * json))
    (w : world) :
  line <> EmptyString ->
  json_loads line = Decoded (JDict kvs) ->
  completions_line model line w = completions_event uuid4_hex unix_time model kvs w.
Proof.
  intros Hne H. unfold completions_on_line, completions_event.
  apply String.eqb_neq in Hne. rewrite Hne.
  unfold except_JSONDecodeError_continue, g_bind, lift, loads. rewrite H.
  cbn [get]. fold (field_or_null kvs "response"). fold (field_or_null kvs "done").
  destruct (truthy (field_or_null kvs "response")) eqn:Hr.
  - rewrite (getitem_present _ _ Hr).
    destruct (truthy (field_or_null kvs "done")); reflexivity.
  - destruct (truthy (field_or_null kvs "done")); reflexivity.
Qed.

Lemma completions_line_other (model line : string) (v : json) (w : world) :
  line <> EmptyString ->
  json_loads line = Decoded v ->
  (forall kvs, v <> JDict kvs) ->
  completions_line model line w
  = ([], Raise (AttributeError ("'" ++ type_name v
                                 ++ "' object has no attribute 'get'")), w).
Proof.
  intros Hne H Hv. unfold completions_on_line.
  apply String.eqb_neq in Hne. rewrite Hne.
  unfold except_JSONDecodeError_continue, g_bind, lift, loads. rewrite H.
  destruct v; try reflexivity. now elim (Hv kvs).
Qed.

Local Notation behaves := (line_behaviour json_loads).

Lemma chat_line_behaviour (model : string) :
  behaves (chat_terminal uuid4_hex unix_time model) (chat_line model).
Proof.
  intros line w fs r w1 E.
  unfold done_event, decodes, blank_malformed_or_object.
  destruct (String.eqb_spec line EmptyString) as [->|Hne].
  - rewrite chat_line_blank in E. inversion E; subst. simpl.
    repeat split; reflexivity.
  - simpl. destruct (json_loads line) as [v|msg] eqn:Hl.
    + destruct v;
        try (rewrite (chat_line_other model line _ w Hne Hl) in E by discriminate;
             inversion E; subst; repeat split; try reflexivity; discriminate).
      rewrite (chat_line_object model line kvs w Hne Hl) in E.
      unfold chat_event in E.
      destruct (truthy (field_or_null kvs "response"));
        destruct (truthy (field_or_null kvs "done"));
        inversion E; subst; (split; [|discriminate]).
      * split; [reflexivity|].
        eexists [_], _. repeat split. now eexists.
      * split; reflexivity.
      * split; [reflexivity|].
        eexists [], _. repeat split. now eexists.
      * split; reflexivity.
    + rewrite (chat_line_malformed model line msg w Hl) in E.
      inversion E; subst. repeat split; reflexivity.
Qed.

Lemma completions_line_behaviour (model : string) :
  behaves completions_terminal (completions_line model).
Proof.
  intros line w fs r w1 E.
  unfold done_event, decodes, blank_malformed_or_object.
  destruct (String.eqb_spec line EmptyString) as [->|Hne].
  - cbv in E. inversion E; subst. simpl. repeat split; reflexivity.
  - simpl. destruct (json_loads line) as [v|msg] eqn:Hl.
    + destruct v;
        try (rewrite (completions_line_other model line _ w Hne Hl) in E by discriminate;
             inversion E; subst; repeat split; try reflexivity; discriminate).
      rewrite (completions_line_object model line kvs w Hne Hl) in E.
      unfold completions_event in E.
      destruct (truthy (field_or_null kvs "response"));
        destruct (truthy (field_or_null kvs "done"));
        inversion E; subst; (split; [|discriminate]).
      * split; [reflexivity|]. eexists [_], _. repeat split.
      * split; reflexivity.
      * split; [reflexivity|]. eexists [], _. repeat split.
      * split; reflexivity.
    + rewrite (completions_line_malformed model line msg w Hl) in E.
      inversion E; subst. repeat split; reflexivity.
Qed.

(** *** The loop over the lines *)

Section Loop.

Variable terminal : list frame -> Prop.
Variable body : string -> gen flow.
Hypothesis body_behaves : behaves terminal body.

(** The frames of a run are open chunks, closed or not by the
    terminal frames; a run that raises has not closed. *)
Lemma for_lines_shape (lines : list string) (tail : stream_end) :
  forall w,
    let t := for_lines body lines tail w in
    exists pre,
      all_open pre
      /\ (frames t = pre
          \/ (result t = Ok tt /\ exists z, terminal z /\ frames t = (pre ++ z)%list)).
Proof.
  induction lines as [|line rest IH]; intros w; simpl.
  - exists []. split; [reflexivity | now left].
  - destruct (body line w) as [[fs r] w1] eqn:E.
    destruct (body_behaves line w fs r w1 E) as [H _].
    destruct r as [[|]|e]; simpl.
    + destruct H as [Hfs _]. destruct (IH w1) as (pre & Hpre & Hcase).
      exists (fs ++ pre)%list. split; [now apply all_open_app|].
      destruct Hcase as [-> | (Hr & z & Hz & ->)]; [now left|].
      right. split; [exact Hr|]. exists z. split; [exact Hz|].
      now rewrite app_assoc.
    + destruct H as (_ & pre & z & -> & Hpre & Hz).
      exists pre. split; [exact Hpre|]. right. split; [reflexivity|].
      now exists z.
    + destruct H as [Hfs _]. exists fs. split; [exact Hfs | now left].
Qed.

(** Without a done event among the lines, nothing closes the stream. *)
Lemma for_lines_open (lines : list string) (tail : stream_end) :
  existsb is_done lines = false ->
  forall w, all_open (frames (for_lines body lines tail w)).
Proof.
  induction lines as [|line rest IH]; intros Hno w; simpl; [reflexivity|].
  simpl in Hno. apply orb_false_elim in Hno. destruct Hno as [Hline Hrest].
  destruct (body line w) as [[fs r] w1] eqn:E.
  destruct (body_behaves line w fs r w1 E) as [H _].
  destruct r as [[|]|e]; simpl.
  - apply all_open_app; [apply H | now apply IH].
  - destruct H as [Hd _]. congruence.
  - apply H.
Qed.

(** A run that raises has emitted open chunks only. *)
Lemma for_lines_raise (lines : list string) (tail : stream_end) :
  forall w e,
    result (for_lines body lines tail w) = Raise e ->
    all_open (frames (for_lines body lines tail w)).
Proof.
  induction lines as [|line rest IH]; intros w e; simpl; [reflexivity|].
  destruct (body line w) as [[fs r] w1] eqn:E.
  destruct (body_behaves line w fs r w1 E) as [H _].
  destruct r as [[|]|e']; simpl; intros Hr.
  - apply all_open_app; [apply H | now apply IH with e].
  - discriminate.
  - apply H.
Qed.

(** Past blank lines, malformed lines and objects the loop reaches the
    first done event, closes the stream there and reads no further. *)
Lemma for_lines_done (lines : list string) (d : string) (extra : list string)
    (tail : stream_end) :
  forallb is_tame lines = true ->
  is_done d = true ->
  forall w,
    let t := for_lines body (lines ++ d :: extra) tail w in
    result t = Ok tt
    /\ (exists u, unread t = (u ++ extra)%list)
    /\ exists pre z, all_open pre /\ terminal z /\ frames t = (pre ++ z)%list.
Proof.
  intros Htame Hd. induction lines as [|line rest IH]; intros w; simpl.
  - destruct (body d w) as [[fs r] w1] eqn:E.
    destruct (body_behaves d w fs r w1 E) as [H _].
    destruct r as [[|]|e]; simpl.
    + destruct H as [_ H]. congruence.
    + destruct H as (_ & pre & z & -> & Hpre & Hz).
      split; [reflexivity|]. split; [now exists []|]. now exists pre, z.
    + destruct H as [_ H]. unfold done_event in Hd. unfold blank_malformed_or_object in H.
      destruct (d =? EmptyString)%string; [discriminate|].
      destruct (json_loads d) as [[]|]; simpl in *; discriminate.
  - simpl in Htame. apply andb_prop in Htame. destruct Htame as [Hline Hrest].
    destruct (body line w) as [[fs r] w1] eqn:E.
    destruct (body_behaves line w fs r w1 E) as [H _].
    destruct r as [[|]|e]; simpl.
    + destruct H as [Hfs _].
      destruct (IH Hrest w1) as (Hr & [u Hu] & pre & z & Hpre & Hz & Hf).
      split; [exact Hr|]. split; [now exists u|].
      exists (fs ++ pre)%list, z. split; [now apply all_open_app|].
      split; [exact Hz|]. now rewrite Hf, app_assoc.
    + destruct H as (_ & pre & z & -> & Hpre & Hz).
      split; [reflexivity|]. split.
      * exists (rest ++ [d])%list. now rewrite <- app_assoc.
      * now exists pre, z.
    + destruct H as [_ H]. congruence.
Qed.

(** Lines that do not decode leave no trace: the run over the lines
    that decode yields the same frames and ends the same way. *)
Lemma for_lines_filter (lines : list string) (tail : stream_end) :
  forall w,
    let t := for_lines body lines tail w in
    let t' := for_lines body (filter (decodes json_loads) lines) tail w in
    frames t' = frames t /\ result t' = result t /\ after t' = after t.
Proof.
  induction lines as [|line rest IH]; intros w; simpl; [now repeat split|].
  destruct (body line w) as [[fs r] w1] eqn:E.
  destruct (body_behaves line w fs r w1 E) as [_ Hskip].
  destruct (decodes json_loads line) eqn:Hdec.
  - simpl. rewrite E. destruct r as [[|]|e]; simpl; try now repeat split.
    destruct (IH w1) as (Hf & Hr & Ha). now rewrite Hf, Hr, Ha.
  - specialize (Hskip eq_refl). inversion Hskip; subst. simpl. apply IH.
Qed.

(** Past blank lines, malformed lines and objects that are no done
    event, the loop reads every line and ends as the body of the
    answer ends. *)
Lemma for_lines_to_end (lines : list string) (tail : stream_end) :
  forallb is_tame lines = true ->
  existsb is_done lines = false ->
  forall w,
    let t := for_lines body lines tail w in
    result t = match tail with EOF => Ok tt | ReadFault e => Raise e end
    /\ unread t = [] /\ all_open (frames t).
Proof.
  induction lines as [|line rest IH]; intros Htame Hno w; simpl; [now repeat split|].
  simpl in Htame, Hno. apply andb_prop in Htame. apply orb_false_elim in Hno.
  destruct Htame as [Hline Hrest]. destruct Hno as [Hd Hds].
  destruct (body line w) as [[fs r] w1] eqn:E.
  destruct (body_behaves line w fs r w1 E) as [H _].
  destruct r as [[|]|e]; simpl.
  - destruct (IH Hrest Hds w1) as (Hr & Hu & Hf).
    split; [exact Hr|]. split; [exact Hu|]. apply all_open_app; [apply H | exact Hf].
  - destruct H as [H _]. congruence.
  - destruct H as [_ H]. congruence.
Qed.

End Loop.

(** *** The two generators *)

Local Notation chat_stream := (chat_generate_stream json_loads uuid4_hex unix_time).
Local Notation completions_stream :=
  (completions_generate_stream json_loads uuid4_hex unix_time).

Lemma stop_chunk_is_stop (model : string) (w : world) :
  is_stop_chunk (Data (chunk (JStr EmptyString) model (Some "stop") w)) = true.
Proof. reflexivity. Qed.

Lemma error_chunk_is_error (content : json) (model : string) (w : world) :
  is_error_chunk (Data (chunk content model (Some "error") w)) = true
  /\ unclosed [Data (chunk content model (Some "error") w)].
Proof. split; reflexivity. Qed.

Lemma error_chunk_after_frames (model : string) (t : run) (e : exn) :
  let t' := error_chunk_after uuid4_hex unix_time model t e in
  frames t'
  = (frames t ++ [Data (chunk (JStr ("Error: " ++ str_exn e)) model (Some "error")
                              (after t))])%list
  /\ result t' = Ok tt /\ unread t' = unread t.
Proof. now repeat split. Qed.

(** A chat stream never raises; its frames are unclosed frames, then
    possibly the stop chunk and the terminator line. *)
Lemma chat_stream_shape (request : ChatCompletionRequest) (payload : json)
    (up : upstream) (w : world) :
  let t := chat_stream request payload up w in
  result t = Ok tt
  /\ exists pre,
       unclosed pre
       /\ (frames t = pre
           \/ exists z, chat_terminal uuid4_hex unix_time (model request) z
                        /\ frames t = (pre ++ z)%list).
Proof.
  unfold chat_generate_stream.
  destruct (api_generate_stream up payload) as [e | status body lines tail].
  - cbn [result]. split; [reflexivity|]. eexists. split; [|left; reflexivity]. reflexivity.
  - destruct (negb (status =? 200)).
    + destruct body as [msg|e]; cbn [result]; (split; [reflexivity|]);
        (eexists; split; [|left; reflexivity]; reflexivity).
    + pose proof (for_lines_shape _ _ (chat_line_behaviour (model request)) lines tail w)
        as Hshape.
      pose proof (for_lines_raise _ _ (chat_line_behaviour (model request)) lines tail w)
        as Hraise.
      cbv zeta in Hshape.
      destruct (result (for_lines (chat_line (model request)) lines tail w))
        as [[]|e] eqn:Hr.
      * split; [exact Hr|].
        destruct Hshape as (pre & Hpre & Hcase). exists pre.
        split; [now apply all_open_unclosed|].
        destruct Hcase as [Hf | (_ & z & Hz & Hf)]; [now left|].
        right. now exists z.
      * destruct (error_chunk_after_frames (model request)
                    (for_lines (chat_line (model request)) lines tail w) e)
          as (Hf & Hres & _).
        split; [exact Hres|]. eexists. split; [|left; exact Hf].
        apply unclosed_app; [apply all_open_unclosed, (Hraise e eq_refl) | reflexivity].
Qed.

(** A completions stream: open chunks, then possibly the terminator. *)
Lemma completions_stream_shape (request : CompletionRequest) (payload : json)
    (up : upstream) (w : world) :
  let t := completions_stream request payload up w in
  exists pre,
    all_open pre /\ (frames t = pre \/ frames t = (pre ++ [DoneLine])%list).
Proof.
  unfold completions_generate_stream.
  destruct (api_generate_stream up payload) as [e | status body lines tail].
  - exists []. split; [reflexivity | now left].
  - destruct (for_lines_shape _ _ (completions_line_behaviour (c_model request))
                              lines tail w) as (pre & Hpre & Hcase).
    exists pre. split; [exact Hpre|].
    destruct Hcase as [Hf | (_ & z & -> & Hf)]; [now left | now right].
Qed.

(** C1 (amended).  Let the upstream answer a streamed request with
    status 200 and with lines of which one is a done event (a JSON
    object whose [done] is true) and every earlier one is blank, is no
    JSON, or is a JSON object.  Then the chat stream returns normally;
    its output is chunks with a null [finish_reason], then exactly one
    chunk with [finish_reason] "stop", then exactly one terminator line
    "data: [DONE]\n\n", and nothing after it; the lines after the done
    event are left unread.  The completions stream likewise returns
    normally, ends with exactly one terminator line, emits nothing
    after it and leaves the lines after the done event unread. *)
Theorem stream_closes_at_done
    (request : ChatCompletionRequest) (crequest : CompletionRequest)
    (payload : json) (up : upstream) (body : outcome string)
    (lines : list string) (d : string) (extra : list string) (tail : stream_end)
    (w : world) :
  api_generate_stream up payload = StreamReplies 200 body (lines ++ d :: extra)%list tail ->
  forallb is_tame lines = true ->
  is_done d = true ->
  let t := chat_stream request payload up w in
  let c := completions_stream crequest payload up w in
  (exists pre w',
      frames t = (pre ++ [Data (chunk (JStr EmptyString) (model request) (Some "stop") w');
                          DoneLine])%list
      /\ all_open pre)
  /\ count is_stop_chunk (frames t) = 1%nat
  /\ count is_done_line (frames t) = 1%nat
  /\ result t = Ok tt
  /\ (exists u, unread t = (u ++ extra)%list)
  /\ (exists pre, frames c = (pre ++ [DoneLine])%list /\ no_done_line pre)
  /\ count is_done_line (frames c) = 1%nat
  /\ result c = Ok tt
  /\ (exists u, unread c = (u ++ extra)%list)
  /\ (forall json_dumps, sse_text json_dumps DoneLine = "data: [DONE]" ++ nl ++ nl).
Proof.
  intros Hup Htame Hd t c. subst t c.
  unfold chat_generate_stream, completions_generate_stream. rewrite Hup.
  change (negb (200 =? 200)) with false. cbv iota.
  destruct (for_lines_done _ _ (chat_line_behaviour (model request))
              lines d extra tail Htame Hd w)
    as (Hr & Hu & pre & z & Hpre & [w' ->] & Hf).
  destruct (for_lines_done _ _ (completions_line_behaviour (c_model crequest))
              lines d extra tail Htame Hd w)
    as (Hr' & Hu' & pre' & z' & Hpre' & -> & Hf').
  cbv zeta in *. rewrite Hr.
  destruct (unclosed_counts pre (all_open_unclosed pre Hpre)) as (Hd0 & Hs0 & _).
  destruct (unclosed_counts pre' (all_open_unclosed pre' Hpre')) as (Hd0' & _ & Hn').
  repeat split.
  - now exists pre, w'.
  - rewrite Hf, count_app, Hs0. reflexivity.
  - rewrite Hf, count_app, Hd0. reflexivity.
  - exact Hr.
  - exact Hu.
  - now exists pre'.
  - rewrite Hf', count_app, Hd0'. reflexivity.
  - exact Hr'.
  - exact Hu'.
Qed.

(** C2 (amended).  Whatever the upstream does with a streamed request,
    the output of the chat stream holds at most one terminator line
    "data: [DONE]\n\n" and as many stop chunks as terminator lines, and
    the output of the completions stream holds at most one terminator
    line; in both, the terminator line, when there is one, is the last
    frame.  There is none (on the chat path, no stop chunk either) when
    the upstream gives no answer or none of its lines is a done event,
    and on the chat path when its status is not 200. *)
Theorem stream_closes_at_most_once
    (request : ChatCompletionRequest) (crequest : CompletionRequest)
    (payload : json) (up : upstream) (w : world) :
  let t := chat_stream request payload up w in
  let c := completions_stream crequest payload up w in
  (count is_done_line (frames t) <= 1)%nat
  /\ count is_stop_chunk (frames t) = count is_done_line (frames t)
  /\ (exists pre, no_done_line pre
                  /\ (frames t = pre \/ frames t = (pre ++ [DoneLine])%list))
  /\ (count is_done_line (frames c) <= 1)%nat
  /\ (exists pre, no_done_line pre
                  /\ (frames c = pre \/ frames c = (pre ++ [DoneLine])%list))
  /\ (without_done json_loads (api_generate_stream up payload) = true ->
      count is_done_line (frames t) = 0%nat
      /\ count is_stop_chunk (frames t) = 0%nat
      /\ count is_done_line (frames c) = 0%nat)
  /\ (error_status (api_generate_stream up payload) = true ->
      count is_done_line (frames t) = 0%nat
      /\ count is_stop_chunk (frames t) = 0%nat).
Proof.
  intros t c.
  destruct (chat_stream_shape request payload up w) as (_ & pre & Hpre & Hcase).
  destruct (completions_stream_shape crequest payload up w) as (pre' & Hpre' & Hcase').
  fold t in Hcase. fold c in Hcase'.
  destruct (unclosed_counts pre Hpre) as (Hd0 & Hs0 & Hn).
  destruct (unclosed_counts pre' (all_open_unclosed pre' Hpre')) as (Hd0' & _ & Hn').
  assert (Hchat : (count is_done_line (frames t) <= 1)%nat
                  /\ count is_stop_chunk (frames t) = count is_done_line (frames t)
                  /\ exists pre0, no_done_line pre0
                       /\ (frames t = pre0 \/ frames t = (pre0 ++ [DoneLine])%list)).
  { destruct Hcase as [Hf | (z & [w' ->] & Hf)]; rewrite Hf.
    - rewrite Hd0, Hs0. split; [lia|]. split; [reflexivity|].
      exists pre. split; [exact Hn | now left].
    - rewrite !count_app, Hd0, Hs0.
      split; [unfold count; simpl; lia|]. split; [reflexivity|].
      exists (pre ++ [Data (chunk (JStr EmptyString) (model request) (Some "stop") w')])%list.
      split.
      + unfold no_done_line in *. now rewrite forallb_app, Hn.
      + right. now rewrite <- app_assoc. }
  destruct Hchat as (H1 & H2 & H3).
  assert (Hcomp : (count is_done_line (frames c) <= 1)%nat
                  /\ exists pre0, no_done_line pre0
                       /\ (frames c = pre0 \/ frames c = (pre0 ++ [DoneLine])%list)).
  { split.
    - destruct Hcase' as [Hf | Hf]; rewrite Hf; [|rewrite count_app]; rewrite Hd0';
        unfold count; simpl; lia.
    - now exists pre'. }
  destruct Hcomp as (H4 & H5).
  split; [exact H1|]. split; [exact H2|]. split; [exact H3|].
  split; [exact H4|]. split; [exact H5|].
  subst t c. unfold chat_generate_stream, completions_generate_stream.
  split.
  - destruct (api_generate_stream up payload) as [e | status body lines tail];
      simpl; [intros _; now repeat split|].
    intros Hno. apply negb_true_iff in Hno.
    pose proof (for_lines_open _ _ (completions_line_behaviour (c_model crequest))
                  lines tail Hno w) as Hc.
    destruct (unclosed_counts _ (all_open_unclosed _ Hc)) as (Hcd & _ & _).
    assert (Ht : unclosed
              (frames
                 (let attempt :=
                    if negb (status =? 200)
                    then
                      match body with
                      | Ok error_msg =>
                          let '(f, w1) :=
                            create_stream_chunk uuid4_hex unix_time
                              (JStr ("Error: " ++ error_msg)) (model request)
                              (Some "error") w in
                          {| frames := [f]; result := Ok tt; unread := lines; after := w1 |}
                      | Raise e =>
                          {| frames := []; result := Raise e; unread := lines; after := w |}
                      end
                    else for_lines (chat_line (model request)) lines tail w in
                  match result attempt with
                  | Ok _ => attempt
                  | Raise e => error_chunk_after uuid4_hex unix_time (model request) attempt e
                  end))).
    { destruct (negb (status =? 200)).
      - destruct body; reflexivity.
      - pose proof (for_lines_open _ _ (chat_line_behaviour (model request))
                      lines tail Hno w) as Ho.
        cbv zeta.
        destruct (result (for_lines (chat_line (model request)) lines tail w)) eqn:Hr.
        + now apply all_open_unclosed.
        + apply unclosed_app; [now apply all_open_unclosed | reflexivity]. }
    destruct (unclosed_counts _ Ht) as (Htd & Hts & _).
    now repeat split.
  - destruct (api_generate_stream up payload) as [e | status body lines tail];
      simpl; [discriminate|].
    intros ->. destruct body; now repeat split.
Qed.

(** C5 (amended).  A line that is blank or that [json.loads] refuses is
    discarded: the loop body of either generator emits nothing for it,
    raises nothing and goes on to the next line.  The frames either
    generator produces, and the way it ends, are those it produces from
    the subsequence of the lines that decode. *)
Theorem undecodable_lines_are_skipped
    (request : ChatCompletionRequest) (crequest : CompletionRequest)
    (payload : json) (up : upstream) (w : world) :
  (forall model line w',
      decodes json_loads line = false ->
      chat_line model line w' = ([], Ok Continue, w')
      /\ completions_line model line w' = ([], Ok Continue, w'))
  /\ (let t := chat_stream request payload up w in
      let t' := chat_stream request payload (decodable_only json_loads up) w in
      frames t' = frames t /\ result t' = result t /\ after t' = after t)
  /\ (let c := completions_stream crequest payload up w in
      let c' := completions_stream crequest payload (decodable_only json_loads up) w in
      frames c' = frames c /\ result c' = result c /\ after c' = after c).
Proof.
  split; [|split].
  - intros model line w' Hdec. split.
    + destruct (chat_line model line w') as [[fs r] w1] eqn:E.
      now apply (chat_line_behaviour model line w' fs r w1 E).
    + destruct (completions_line model line w') as [[fs r] w1] eqn:E.
      now apply (completions_line_behaviour model line w' fs r w1 E).
  - cbv zeta. unfold chat_generate_stream, decodable_only. cbn [api_generate_stream].
    destruct (api_generate_stream up payload) as [e | status body lines tail];
      [now repeat split|].
    destruct (negb (status =? 200)); [destruct body; now repeat split|].
    destruct (for_lines_filter _ _ (chat_line_behaviour (model request)) lines tail w)
      as (Hf & Hr & Ha).
    cbv zeta in Hf, Hr, Ha. rewrite Hr.
    destruct (result (for_lines (chat_line (model request)) lines tail w))
      as [[]|e] eqn:Hres.
    + split; [exact Hf|]. split; [congruence | exact Ha].
    + unfold error_chunk_after. cbn. rewrite Hf, Ha. now repeat split.
  - cbv zeta. unfold completions_generate_stream, decodable_only.
    cbn [api_generate_stream].
    destruct (api_generate_stream up payload) as [e | status body lines tail];
      [now repeat split|].
    apply (for_lines_filter _ _ (completions_line_behaviour (c_model crequest))).
Qed.

(** *** Faults *)

(** No answer from the upstream: the chat stream is one error chunk. *)
Lemma chat_stream_unreachable (request : ChatCompletionRequest) (payload : json)
    (up : upstream) (e : exn) (w : world) :
  api_generate_stream up payload = StreamFails e ->
  let t := chat_stream request payload up w in
  frames t = [Data (chunk (JStr ("Error: " ++ str_exn e)) (model request)
                          (Some "error") w)]
  /\ result t = Ok tt.
Proof. intros H. unfold chat_generate_stream. rewrite H. now split. Qed.

(** No answer from the upstream: the completions stream raises at once. *)
Lemma completions_stream_unreachable (request : CompletionRequest) (payload : json)
    (up : upstream) (e : exn) (w : world) :
  api_generate_stream up payload = StreamFails e ->
  let t := completions_stream request payload up w in
  frames t = [] /\ result t = Raise e.
Proof. intros H. unfold completions_generate_stream. rewrite H. now split. Qed.

(** A fault while the chat stream reads: one error chunk with the
    fault's text closes the output. *)
Lemma chat_stream_read_fault (request : ChatCompletionRequest) (payload : json)
    (up : upstream) (body : outcome string) (lines : list string) (e : exn)
    (w : world) :
  api_generate_stream up payload = StreamReplies 200 body lines (ReadFault e) ->
  forallb is_tame lines = true ->
  existsb is_done lines = false ->
  let t := chat_stream request payload up w in
  result t = Ok tt
  /\ exists pre w',
      all_open pre
      /\ frames t = (pre ++ [Data (chunk (JStr ("Error: " ++ str_exn e)) (model request)
                                         (Some "error") w')])%list.
Proof.
  intros H Htame Hno. unfold chat_generate_stream. rewrite H.
  change (negb (200 =? 200)) with false. cbv iota.
  destruct (for_lines_to_end _ _ (chat_line_behaviour (model request))
              lines (ReadFault e) Htame Hno w) as (Hr & _ & Hf).
  cbv zeta in *. rewrite Hr. split; [reflexivity|].
  eexists _, _. split; [exact Hf | reflexivity].
Qed.

(** The completions stream never emits an error chunk, and a fault
    while it reads escapes from the generator. *)
Lemma completions_stream_no_error_chunk (request : CompletionRequest) (payload : json)
    (up : upstream) (w : world) :
  count is_error_chunk (frames (completions_stream request payload up w)) = 0%nat.
Proof.
  destruct (completions_stream_shape request payload up w) as (pre & Hpre & Hcase).
  assert (H0 : count is_error_chunk pre = 0%nat).
  { apply all_open_count; [|exact Hpre]. intros f Hf. now apply open_chunk_plain. }
  destruct Hcase as [-> | ->]; [exact H0|]. now rewrite count_app, H0.
Qed.

Lemma completions_stream_read_fault (request : CompletionRequest) (payload : json)
    (up : upstream) (status : Z) (body : outcome string) (lines : list string)
    (e : exn) (w : world) :
  api_generate_stream up payload = StreamReplies status body lines (ReadFault e) ->
  forallb is_tame lines = true ->
  existsb is_done lines = false ->
  let t := completions_stream request payload up w in
  result t = Raise e /\ all_open (frames t).
Proof.
  intros H Htame Hno. unfold completions_generate_stream. rewrite H.
  destruct (for_lines_to_end _ _ (completions_line_behaviour (c_model request))
              lines (ReadFault e) Htame Hno w) as (Hr & _ & Hf).
  now split.
Qed.

End StreamTranslator.

(** ** The handlers *)

Section Handlers.

Variable json_loads : string -> decoded.
Variable uuid4_hex : nat -> string.
Variable unix_time : nat -> Z.

Local Notation chat := (chat_completions json_loads uuid4_hex unix_time).
Local Notation complete := (completions json_loads uuid4_hex unix_time).
Local Notation models := (list_models json_loads unix_time).

(** The chat handler asks the upstream about one payload only. *)
Lemma chat_completions_sends_payload (request : ChatCompletionRequest)
    (up up' : upstream) (w : world) :
  api_generate up (sent_by_chat request) = api_generate up' (sent_by_chat request) ->
  api_generate_stream up (sent_by_chat request)
  = api_generate_stream up' (sent_by_chat request) ->
  chat request up w = chat request up' w.
Proof.
  unfold sent_by_chat, chat_completions, chat_generate_stream. intros -> ->. reflexivity.
Qed.

Lemma completions_sends_payload (request : CompletionRequest)
    (up up' : upstream) (w : world) :
  api_generate up (completion_payload request)
  = api_generate up' (completion_payload request) ->
  api_generate_stream up (completion_payload request)
  = api_generate_stream up' (completion_payload request) ->
  complete request up w = complete request up' w.
Proof.
  unfold completions, completions_generate_stream. intros -> ->. reflexivity.
Qed.

(** C3 (the code at a status other than 200).  When the upstream
    answers a non-streaming chat or completion request with a status
    other than 200, the handler raises [HTTPException] with that
    status, its own [except Exception] catches it, and the client gets
    status 500 with the detail "{status}: Failed to generate response". *)
Theorem upstream_status_becomes_500
    (request : ChatCompletionRequest) (crequest : CompletionRequest)
    (up : upstream) (status : Z) (text : string) (w : world) :
  truthy (opt bool JBool (stream request)) = false ->
  truthy (opt bool JBool (c_stream crequest)) = false ->
  api_generate up (sent_by_chat request) = Replies status text ->
  api_generate up (completion_payload crequest) = Replies status text ->
  status <> 200 ->
  chat request up w
  = (Raises (HTTPException 500 (str_int status ++ ": Failed to generate response")), w)
  /\ complete crequest up w
     = (Raises (HTTPException 500 (str_int status ++ ": Failed to generate response")), w)
  /\ http_status (fst (chat request up w)) = 500
  /\ http_status (fst (complete crequest up w)) = 500.
Proof.
  intros Hs Hcs Hup Hcup Hne.
  assert (Hchat : chat request up w
                  = (Raises (HTTPException 500
                               (str_int status ++ ": Failed to generate response")), w)).
  { unfold chat_completions. rewrite Hs. fold (sent_by_chat request). rewrite Hup.
    unfold checked. apply Z.eqb_neq in Hne. rewrite Hne. reflexivity. }
  assert (Hcomp : complete crequest up w
                  = (Raises (HTTPException 500
                               (str_int status ++ ": Failed to generate response")), w)).
  { unfold completions. rewrite Hcs, Hcup.
    unfold checked. apply Z.eqb_neq in Hne. rewrite Hne. reflexivity. }
  rewrite Hchat, Hcomp. now repeat split.
Qed.

(** C4 (the code when nothing answers at the upstream).  When every
    call to the upstream raises an [httpx.RequestError] with text
    [msg], the model list answers with status 503 and the detail
    "Ollama service unavailable: {msg}", and the chat stream is a
    single error chunk whose text is "Error: {msg}", with no terminator
    line, as the claim says.  The non-streaming chat and completion
    handlers have no clause for [httpx.RequestError]: the fault falls
    into their [except Exception] and the client gets status 500 with
    [msg] as detail, where the claim and the model list say 503. *)
Theorem unreachable_upstream
    (request : ChatCompletionRequest) (crequest : CompletionRequest)
    (msg : string) (w : world) :
  models (unreachable msg) w
  = (Raises (HTTPException 503 ("Ollama service unavailable: " ++ msg)), w)
  /\ http_status (fst (models (unreachable msg) w)) = 503
  /\ (truthy (opt bool JBool (stream request)) = false ->
      chat request (unreachable msg) w = (Raises (HTTPException 500 msg), w))
  /\ (truthy (opt bool JBool (c_stream crequest)) = false ->
      complete crequest (unreachable msg) w = (Raises (HTTPException 500 msg), w))
  /\ (truthy (opt bool JBool (stream request)) = true ->
      exists r,
        fst (chat request (unreachable msg) w) = Streams r
        /\ frames r = [Data (stream_chunk uuid4_hex unix_time (JStr ("Error: " ++ msg))
                                          (model request) (Some "error") w)]
        /\ count is_error_chunk (frames r) = 1%nat
        /\ count is_done_line (frames r) = 0%nat).
Proof.
  split; [reflexivity|]. split; [reflexivity|]. split; [|split].
  - intros Hs. unfold chat_completions. now rewrite Hs.
  - intros Hs. unfold completions. now rewrite Hs.
  - intros Hs. unfold chat_completions. rewrite Hs. eexists. split; [reflexivity|].
    split; [reflexivity|]. split; reflexivity.
Qed.

(** C9.  A non-streaming request the upstream answers with status 200
    and a JSON object whose [prompt_eval_count] and [eval_count] are
    integers or are absent: the [usage] of the response, on the chat
    and on the completions endpoint, has [prompt_tokens] equal to
    [prompt_eval_count] (0 when absent), [completion_tokens] equal to
    [eval_count] (0 when absent) and [total_tokens] equal to their sum. *)
Theorem usage_accounting
    (request : ChatCompletionRequest) (crequest : CompletionRequest)
    (up : upstream) (text : string) (kvs : list (string * json)) (p c : Z)
    (w : world) :
  truthy (opt bool JBool (stream request)) = false ->
  truthy (opt bool JBool (c_stream crequest)) = false ->
  api_generate up (sent_by_chat request) = Replies 200 text ->
  api_generate up (completion_payload crequest) = Replies 200 text ->
  json_loads text = Decoded (JDict kvs) ->
  int_or_zero kvs "prompt_eval_count" = Some p ->
  int_or_zero kvs "eval_count" = Some c ->
  let usage := JDict [("prompt_tokens", JInt p);
                      ("completion_tokens", JInt c);
                      ("total_tokens", JInt (p + c))] in
  exists body body',
    chat request up w = (Returns body, tick w)
    /\ complete crequest up w = (Returns body', tick w)
    /\ at_path body ["usage"] = Some usage
    /\ at_path body' ["usage"] = Some usage.
Proof.
  intros Hs Hcs Hup Hcup Hl Hp Hc usage.
  assert (Hu : usage_of (JDict kvs) = Ok usage).
  { unfold usage_of, get, int_or_zero in *.
    destruct (lookup kvs "prompt_eval_count") as [[]|]; try discriminate;
      destruct (lookup kvs "eval_count") as [[]|]; try discriminate;
      inversion Hp; inversion Hc; subst; reflexivity. }
  unfold chat_completions, completions.
  rewrite Hs, Hcs. fold (sent_by_chat request). rewrite Hup, Hcup.
  unfold checked, loads. change (negb (200 =? 200)) with false. cbv iota.
  cbn [bind]. rewrite Hl. cbn [bind]. rewrite Hu. cbn [bind get].
  eexists _, _. split; [reflexivity|]. split; [reflexivity|]. split; reflexivity.
Qed.

End Handlers.

(** ** Payloads and defaults *)

(** C8.  The payload of a chat request carries the request's
    [max_tokens] as [options.num_predict], its [temperature] as
    [options.temperature] and its [top_p] as [options.top_p], and has
    no key [frequency_penalty] or [presence_penalty] at any depth.  The
    payload of a completion request carries the request's [prompt]
    unchanged, and its [options] hold [temperature] and [num_predict]
    and nothing else (no [top_p]). *)
Theorem payload_translation
    (request : ChatCompletionRequest) (crequest : CompletionRequest) (prompt : string) :
  let p := chat_payload request prompt in
  let q := completion_payload crequest in
  at_path p ["options"; "num_predict"] = Some (opt Z JInt (max_tokens request))
  /\ at_path p ["options"; "temperature"] = Some (opt float JFloat (temperature request))
  /\ at_path p ["options"; "top_p"] = Some (opt float JFloat (top_p request))
  /\ at_path (sent_by_chat request) ["prompt"]
     = Some (JStr (convert_messages_to_ollama_prompt (messages request)))
  /\ keys p = ["model"; "prompt"; "stream"; "options"]
  /\ has_key "frequency_penalty" p = false
  /\ has_key "presence_penalty" p = false
  /\ at_path q ["prompt"] = Some (JStr (c_prompt crequest))
  /\ at_path q ["options"]
     = Some (JDict [("temperature", opt float JFloat (c_temperature crequest));
                    ("num_predict", opt Z JInt (c_max_tokens crequest))])
  /\ at_path q ["options"; "top_p"] = None
  /\ has_key "top_p" q = false.
Proof.
  destruct request as [m ms s t mt tp fp pp], crequest as [cm cp cs ct cmt].
  cbv zeta. unfold chat_payload, completion_payload, sent_by_chat. cbn [model messages
    stream temperature max_tokens top_p c_model c_prompt c_stream c_temperature
    c_max_tokens].
  repeat split; try reflexivity.
  - destruct s, t, mt, tp; reflexivity.
  - destruct s, t, mt, tp; reflexivity.
  - destruct cs, ct, cmt; reflexivity.
Qed.

(** C10 (amended).  A field left out of a request takes its default:
    [stream] false, [temperature] 0.7 and [max_tokens] 1000 in both
    request kinds, and [top_p] 1.0, [frequency_penalty] 0.0 and
    [presence_penalty] 0.0 in a chat request.  The payload then carries
    the defaults of [stream], [temperature] and [max_tokens] (as
    [options.num_predict]) and, for a chat request, of [top_p]; the two
    penalties are not part of the payload. *)
Theorem omitted_fields_take_defaults
    (model prompt : string) (messages : list Message)
    (s : option (option bool)) (t p f q : option (option float))
    (m : option (option Z)) :
  stream (new_ChatCompletionRequest model messages None t m p f q) = Some false
  /\ temperature (new_ChatCompletionRequest model messages s None m p f q)
     = Some 0.7%float
  /\ max_tokens (new_ChatCompletionRequest model messages s t None p f q) = Some 1000
  /\ top_p (new_ChatCompletionRequest model messages s t m None f q) = Some 1.0%float
  /\ frequency_penalty (new_ChatCompletionRequest model messages s t m p None q)
     = Some 0.0%float
  /\ presence_penalty (new_ChatCompletionRequest model messages s t m p f None)
     = Some 0.0%float
  /\ c_stream (new_CompletionRequest model prompt None t m) = Some false
  /\ c_temperature (new_CompletionRequest model prompt s None m) = Some 0.7%float
  /\ c_max_tokens (new_CompletionRequest model prompt s t None) = Some 1000
  /\ at_path (sent_by_chat (new_ChatCompletionRequest model messages None t m p f q))
             ["stream"] = Some (JBool false)
  /\ at_path (sent_by_chat (new_ChatCompletionRequest model messages s None m p f q))
             ["options"; "temperature"] = Some (JFloat 0.7%float)
  /\ at_path (sent_by_chat (new_ChatCompletionRequest model messages s t None p f q))
             ["options"; "num_predict"] = Some (JInt 1000)
  /\ at_path (sent_by_chat (new_ChatCompletionRequest model messages s t m None f q))
             ["options"; "top_p"] = Some (JFloat 1.0%float)
  /\ at_path (completion_payload (new_CompletionRequest model prompt None t m))
             ["stream"] = Some (JBool false)
  /\ at_path (completion_payload (new_CompletionRequest model prompt s None m))
             ["options"; "temperature"] = Some (JFloat 0.7%float)
  /\ at_path (completion_payload (new_CompletionRequest model prompt s t None))
             ["options"; "num_predict"] = Some (JInt 1000)
  /\ has_key "frequency_penalty"
       (sent_by_chat (new_ChatCompletionRequest model messages s t m p None q)) = false
  /\ has_key "presence_penalty"
       (sent_by_chat (new_ChatCompletionRequest model messages s t m p f None)) = false.
Proof.
  repeat split; try reflexivity.
  - destruct s as [[]|], t as [[]|], m as [[]|], p as [[]|]; reflexivity.
  - destruct s as [[]|], t as [[]|], m as [[]|], p as [[]|]; reflexivity.
Qed.

(** ** The program at concrete inputs *)

Local Notation sample_chat_stream :=
  (chat_generate_stream sample_loads sample_uuid sample_time).
Local Notation sample_completions_stream :=
  (completions_generate_stream sample_loads sample_uuid sample_time).
Local Notation sample_chat := (chat_completions sample_loads sample_uuid sample_time).
Local Notation sample_completions := (completions sample_loads sample_uuid sample_time).
Local Notation sample_chunk := (stream_chunk sample_uuid sample_time).

(** C1, as stated, fails.  On the chat path the lines [5] and
    [{"done": true}] end in a done event, yet the output is a single
    error chunk: no stop chunk, no terminator line.  On the completions
    path the lines [{"response": "Hi"}] and [{"done": true}] give a
    text chunk and the terminator line, and no stop chunk. *)
Lemma stream_closes_at_done_counterexample :
  (let t := sample_chat_stream (chat_request true) (sent_by_chat (chat_request true))
              (streaming [line_five; line_done] EOF) w0 in
   frames t = [Data (sample_chunk (JStr "Error: 'int' object has no attribute 'get'")
                                  "llama3" (Some "error") w0)]
   /\ count is_stop_chunk (frames t) = 0%nat
   /\ count is_done_line (frames t) = 0%nat
   /\ unread t = [line_done])
  /\ (let c := sample_completions_stream (completion_request true)
                 (completion_payload (completion_request true))
                 (streaming [line_hi; line_done] EOF) w0 in
      frames c = [fst (completion_chunk sample_uuid sample_time (JStr "Hi") "llama3" w0);
                  DoneLine]
      /\ count is_stop_chunk (frames c) = 0%nat).
Proof. vm_compute. repeat split. Qed.

Lemma stream_closes_at_done_witness :
  let t := sample_chat_stream (chat_request true) (sent_by_chat (chat_request true))
             (streaming [EmptyString; "oops"; line_hi; line_done; line_hi] EOF) w0 in
  frames t = [Data (sample_chunk (JStr "Hi") "llama3" None w0);
              Data (sample_chunk (JStr EmptyString) "llama3" (Some "stop") (tick w0));
              DoneLine]
  /\ count is_stop_chunk (frames t) = 1%nat
  /\ count is_done_line (frames t) = 1%nat
  /\ unread t = [line_hi].
Proof.
  destruct (stream_closes_at_done sample_loads sample_uuid sample_time
              (chat_request true) (completion_request true)
              (sent_by_chat (chat_request true))
              (streaming [EmptyString; "oops"; line_hi; line_done; line_hi] EOF)
              (Ok EmptyString) [EmptyString; "oops"; line_hi] line_done [line_hi] EOF w0
              eq_refl eq_refl eq_refl)
    as (_ & Hstop & Hdone & _).
  cbv zeta. split; [reflexivity|]. split; [exact Hstop|]. split; [exact Hdone|].
  reflexivity.
Defined.

(** C2, as stated, fails: a stream that ends after [{"response": "Hi"}]
    gives one text chunk and then ends, with neither a stop chunk nor
    a terminator line. *)
Lemma stream_closes_at_most_once_counterexample :
  let t := sample_chat_stream (chat_request true) (sent_by_chat (chat_request true))
             (streaming [line_hi] EOF) w0 in
  frames t = [Data (sample_chunk (JStr "Hi") "llama3" None w0)]
  /\ result t = Ok tt
  /\ count is_done_line (frames t) = 0%nat
  /\ count is_stop_chunk (frames t) = 0%nat
  /\ count is_error_chunk (frames t) = 0%nat.
Proof. vm_compute. repeat split. Qed.

Lemma stream_closes_at_most_once_witness :
  let t := sample_chat_stream (chat_request true) (sent_by_chat (chat_request true))
             (streaming [line_hi] (ReadFault (RequestError "timed out"))) w0 in
  count is_done_line (frames t) = 0%nat /\ count is_stop_chunk (frames t) = 0%nat.
Proof.
  destruct (stream_closes_at_most_once sample_loads sample_uuid sample_time
              (chat_request true) (completion_request true)
              (sent_by_chat (chat_request true))
              (streaming [line_hi] (ReadFault (RequestError "timed out"))) w0)
    as (_ & _ & _ & _ & _ & Hno & _).
  destruct (Hno eq_refl) as (Hd & Hs & _). now split.
Defined.

(** C5, as stated, fails: the line [5] is JSON but no object; the chat
    stream does not discard it but answers it with an error chunk and
    stops, leaving [{"response": "Hi"}] unread, while the well-formed
    line alone gives a text chunk. *)
Lemma undecodable_lines_are_skipped_counterexample :
  (let t := sample_chat_stream (chat_request true) (sent_by_chat (chat_request true))
              (streaming [line_five; line_hi] EOF) w0 in
   frames t = [Data (sample_chunk (JStr "Error: 'int' object has no attribute 'get'")
                                  "llama3" (Some "error") w0)]
   /\ unread t = [line_hi])
  /\ (let t := sample_chat_stream (chat_request true) (sent_by_chat (chat_request true))
                 (streaming [line_hi] EOF) w0 in
      frames t = [Data (sample_chunk (JStr "Hi") "llama3" None w0)])
  /\ (let c := sample_completions_stream (completion_request true)
                 (completion_payload (completion_request true))
                 (streaming [line_five; line_hi] EOF) w0 in
      frames c = []
      /\ result c = Raise (AttributeError "'int' object has no attribute 'get'")).
Proof. vm_compute. repeat split. Qed.

Lemma undecodable_lines_are_skipped_witness :
  chat_on_line sample_loads sample_uuid sample_time "llama3" "oops" w0
  = ([], Ok Continue, w0)
  /\ frames (sample_chat_stream (chat_request true) (sent_by_chat (chat_request true))
              (streaming [line_hi; line_done] EOF) w0)
     = frames (sample_chat_stream (chat_request true) (sent_by_chat (chat_request true))
                 (streaming ["oops"; line_hi; EmptyString; "{"; line_done] EOF) w0).
Proof.
  destruct (undecodable_lines_are_skipped sample_loads sample_uuid sample_time
              (chat_request true) (completion_request true)
              (sent_by_chat (chat_request true))
              (streaming ["oops"; line_hi; EmptyString; "{"; line_done] EOF) w0)
    as (Hline & (Hframes & _) & _).
  split.
  - apply (Hline "llama3" "oops" w0). reflexivity.
  - exact Hframes.
Defined.

(** C6 (the code at a read fault).  The completions stream never emits
    an error chunk.  When the upstream sends [{"response": "Hi"}] and
    the read then times out, the output is the one text chunk and the
    fault escapes from the generator. *)
Theorem completions_stream_fault_unreported :
  (forall json_loads uuid4_hex unix_time request payload up w,
      count is_error_chunk
        (frames (completions_generate_stream json_loads uuid4_hex unix_time
                   request payload up w)) = 0%nat)
  /\ (let c := sample_completions_stream (completion_request true)
                 (completion_payload (completion_request true))
                 (streaming [line_hi] (ReadFault (RequestError "timed out"))) w0 in
      frames c = [fst (completion_chunk sample_uuid sample_time (JStr "Hi") "llama3" w0)]
      /\ result c = Raise (RequestError "timed out"))
  /\ (let t := sample_chat_stream (chat_request true) (sent_by_chat (chat_request true))
                 (streaming [line_hi] (ReadFault (RequestError "timed out"))) w0 in
      frames t = [Data (sample_chunk (JStr "Hi") "llama3" None w0);
                  Data (sample_chunk (JStr "Error: timed out") "llama3" (Some "error")
                                     (tick w0))]
      /\ result t = Ok tt).
Proof.
  split; [exact completions_stream_no_error_chunk|].
  vm_compute. repeat split.
Qed.

Lemma upstream_status_becomes_500_witness :
  sample_chat (chat_request false) (answering 404 "model not found") w0
  = (Raises (HTTPException 500 "404: Failed to generate response"), w0)
  /\ http_status (fst (sample_completions (completion_request false)
                         (answering 404 "model not found") w0)) = 500.
Proof.
  destruct (upstream_status_becomes_500 sample_loads sample_uuid sample_time
              (chat_request false) (completion_request false)
              (answering 404 "model not found") 404 "model not found" w0
              eq_refl eq_refl eq_refl eq_refl ltac:(discriminate))
    as (Hchat & _ & _ & Hstatus).
  split; [exact Hchat | exact Hstatus].
Defined.

(** With nothing listening at the upstream, the non-streaming chat and
    completion handlers answer with status 500, and the completions
    stream emits no chunk at all. *)
Lemma unreachable_upstream_counterexample :
  http_status (fst (sample_chat (chat_request false)
                      (unreachable "All connection attempts failed") w0)) = 500
  /\ http_status (fst (sample_completions (completion_request false)
                         (unreachable "All connection attempts failed") w0)) = 500
  /\ (let c := sample_completions_stream (completion_request true)
                 (completion_payload (completion_request true))
                 (unreachable "All connection attempts failed") w0 in
      frames c = []
      /\ result c = Raise (RequestError "All connection attempts failed")).
Proof. vm_compute. repeat split. Qed.

Lemma unreachable_upstream_witness :
  sample_chat (chat_request false) (unreachable "All connection attempts failed") w0
  = (Raises (HTTPException 500 "All connection attempts failed"), w0)
  /\ sample_completions (completion_request false)
       (unreachable "All connection attempts failed") w0
     = (Raises (HTTPException 500 "All connection attempts failed"), w0)
  /\ exists r,
       fst (sample_chat (chat_request true)
              (unreachable "All connection attempts failed") w0) = Streams r
       /\ frames r = [Data (sample_chunk (JStr "Error: All connection attempts failed")
                                         "llama3" (Some "error") w0)].
Proof.
  destruct (unreachable_upstream sample_loads sample_uuid sample_time
              (chat_request false) (completion_request false)
              "All connection attempts failed" w0)
    as (_ & _ & Hchat & Hcomp & _).
  destruct (unreachable_upstream sample_loads sample_uuid sample_time
              (chat_request true) (completion_request true)
              "All connection attempts failed" w0)
    as (_ & _ & _ & _ & Hstream).
  split; [exact (Hchat eq_refl)|]. split; [exact (Hcomp eq_refl)|].
  destruct (Hstream eq_refl) as (r & Hr & Hf & _). now exists r.
Defined.

Lemma usage_accounting_witness :
  exists body body',
    sample_chat (chat_request false) (answering 200 text_answer) w0
    = (Returns body, tick w0)
    /\ sample_completions (completion_request false) (answering 200 text_answer) w0
       = (Returns body', tick w0)
    /\ at_path body ["usage"]
       = Some (JDict [("prompt_tokens", JInt 5);
                      ("completion_tokens", JInt 2);
                      ("total_tokens", JInt 7)])
    /\ at_path body' ["usage"]
       = Some (JDict [("prompt_tokens", JInt 5);
                      ("completion_tokens", JInt 2);
                      ("total_tokens", JInt 7)]).
Proof.
  exact (usage_accounting sample_loads sample_uuid sample_time
           (chat_request false) (completion_request false)
           (answering 200 text_answer) text_answer
           [("response", JStr "Hi"); ("prompt_eval_count", JInt 5); ("eval_count", JInt 2)]
           5 2 w0 eq_refl eq_refl eq_refl eq_refl eq_refl eq_refl eq_refl).
Defined.

(** C10, as stated, fails in its last clause: a chat request that
    leaves out the penalties holds 0.0 for both, and the payload sent
    for it has no such key. *)
Lemma omitted_fields_take_defaults_counterexample :
  let request := new_ChatCompletionRequest "llama3" [] None None None None None None in
  frequency_penalty request = Some 0.0%float
  /\ presence_penalty request = Some 0.0%float
  /\ has_key "frequency_penalty" (sent_by_chat request) = false
  /\ has_key "presence_penalty" (sent_by_chat request) = false
  /\ at_path (sent_by_chat request) ["options"]
     = Some (JDict [("temperature", JFloat 0.7%float);
                    ("num_predict", JInt 1000);
                    ("top_p", JFloat 1.0%float)]).
Proof. vm_compute. repeat split. Qed.

(** * Further properties *)

(** ** What the streams forward *)

Lemma ticks_tick (n : nat) (w : world) : ticks n (tick w) = tick (ticks n w).
Proof. revert w. induction n as [|n IH]; intros w; simpl; [reflexivity | apply IH]. Qed.

Lemma ticks_drawn (n : nat) (w : world) :
  ids_drawn (ticks n w) = (ids_drawn w + n)%nat
  /\ clock_reads (ticks n w) = (clock_reads w + n)%nat.
Proof.
  revert w. induction n as [|n IH]; intros w; simpl; [split; lia|].
  destruct (IH (tick w)) as [-> ->]. simpl. split; lia.
Qed.

Lemma count_numbered (mk : json -> world -> frame) (vs : list json) :
  (forall v w, is_data (mk v w) = true) ->
  forall w, count is_data (numbered mk vs w) = List.length vs.
Proof.
  intros Hmk. unfold count. induction vs as [|v vs IH]; intros w; simpl; [reflexivity|].
  rewrite Hmk. simpl. now rewrite IH.
Qed.

Lemma numbered_open (mk : json -> world -> frame) (vs : list json) :
  (forall v w, is_open_chunk (mk v w) = true) ->
  forall w, all_open (numbered mk vs w).
Proof.
  intros Hmk. unfold all_open. induction vs as [|v vs IH]; intros w; simpl; [reflexivity|].
  now rewrite Hmk, IH.
Qed.

Section Forwarding.

Variable json_loads : string -> decoded.
Variable uuid4_hex : nat -> string.
Variable unix_time : nat -> Z.

Local Notation chat_line := (chat_on_line json_loads uuid4_hex unix_time).
Local Notation completions_line := (completions_on_line json_loads uuid4_hex unix_time).
Local Notation chunk := (stream_chunk uuid4_hex unix_time).
Local Notation chat_stream := (chat_generate_stream json_loads uuid4_hex unix_time).
Local Notation completions_stream :=
  (completions_generate_stream json_loads uuid4_hex unix_time).
Local Notation chat_delta model := (fun v w => Data (chunk v model None w)).
Local Notation text_delta model :=
  (fun v w => fst (completion_chunk uuid4_hex unix_time v model w)).
Local Notation forwarded := (responses json_loads).
Local Notation ends := (how_it_ends json_loads).

(** The loop of the chat generator, line by line. *)
Lemma chat_loop_run (model : string) (lines : list string) (tail : stream_end) :
  forall w,
    let vs := forwarded lines in
    let w' := ticks (List.length vs) w in
    let t := for_lines (chat_line model) lines tail w in
    frames t
    = (numbered (chat_delta model) vs w
       ++ match ends lines tail with
          | Closed => [Data (chunk (JStr EmptyString) model (Some "stop") w'); DoneLine]
          | _ => []
          end)%list
    /\ result t = match ends lines tail with Faulted e => Raise e | _ => Ok tt end
    /\ after t = match ends lines tail with Closed => tick w' | _ => w' end.
Proof.
  induction lines as [|line rest IH]; intros w; cbv zeta.
  - simpl. destruct tail; now repeat split.
  - cbn [for_lines responses how_it_ends].
    destruct (String.eqb_spec line EmptyString) as [->|Hne].
    + rewrite chat_line_blank. apply IH.
    + destruct (json_loads line) as [v|msg] eqn:Hl.
      * destruct v;
          try (rewrite (chat_line_other json_loads uuid4_hex unix_time
                          model line _ w Hne Hl) by discriminate;
               now repeat split).
        rewrite (chat_line_object json_loads uuid4_hex unix_time model line kvs w Hne Hl).
        unfold chat_event.
        destruct (truthy (field_or_null kvs "response"));
          destruct (truthy (field_or_null kvs "done")); cbn.
        -- now repeat split.
        -- destruct (IH (tick w)) as (Hf & Hr & Ha). cbv zeta in Hf, Hr, Ha.
           rewrite Hf, Hr, Ha. now repeat split.
        -- now repeat split.
        -- apply IH.
      * rewrite (chat_line_malformed json_loads uuid4_hex unix_time model line msg w Hl).
        apply IH.
Qed.

(** The loop of the completions generator, line by line. *)
Lemma completions_loop_run (model : string) (lines : list string) (tail : stream_end) :
  forall w,
    let vs := forwarded lines in
    let w' := ticks (List.length vs) w in
    let t := for_lines (completions_line model) lines tail w in
    frames t
    = (numbered (text_delta model) vs w
       ++ match ends lines tail with Closed => [DoneLine] | _ => [] end)%list
    /\ result t = match ends lines tail with Faulted e => Raise e | _ => Ok tt end
    /\ after t = w'.
Proof.
  induction lines as [|line rest IH]; intros w; cbv zeta.
  - simpl. destruct tail; now repeat split.
  - cbn [for_lines responses how_it_ends].
    destruct (String.eqb_spec line EmptyString) as [->|Hne].
    + change (completions_line model EmptyString w) with (@nil frame, Ok Continue, w).
      apply IH.
    + destruct (json_loads line) as [v|msg] eqn:Hl.
      * destruct v;
          try (rewrite (completions_line_other json_loads uuid4_hex unix_time
                          model line _ w Hne Hl) by discriminate;
               now repeat split).
        rewrite (completions_line_object json_loads uuid4_hex unix_time
                   model line kvs w Hne Hl).
        unfold completions_event.
        destruct (truthy (field_or_null kvs "response"));
          destruct (truthy (field_or_null kvs "done")); cbn.
        -- now repeat split.
        -- destruct (IH (tick w)) as (Hf & Hr & Ha). cbv zeta in Hf, Hr, Ha.
           rewrite Hf, Hr, Ha. now repeat split.
        -- now repeat split.
        -- apply IH.
      * rewrite (completions_line_malformed json_loads uuid4_hex unix_time
                   model line msg w Hl).
        apply IH.
Qed.

Lemma forwarded_truthy (lines : list string) :
  forallb truthy (forwarded lines) = true.
Proof.
  induction lines as [|line rest IH]; simpl; [reflexivity|].
  destruct (line =? EmptyString)%string; [exact IH|].
  destruct (json_loads line) as [[]|]; try reflexivity; try exact IH.
  destruct (truthy (field_or_null kvs "response")) eqn:Hr;
    destruct (truthy (field_or_null kvs "done")); simpl;
    rewrite ?Hr; try reflexivity; exact IH.
Qed.

Lemma chat_delta_content (model : string) (vs : list json) :
  forallb truthy vs = true ->
  forall w, map delta_content (numbered (chat_delta model) vs w) = map Some vs.
Proof.
  induction vs as [|v vs IH]; intros Hvs w; simpl; [reflexivity|].
  simpl in Hvs. apply andb_prop in Hvs. destruct Hvs as [Hv Hvs].
  rewrite (IH Hvs). f_equal. unfold stream_chunk. cbn. now rewrite Hv.
Qed.

(** X1.  What the chat generator makes of a body it reads with status 200:
    one chunk for each value of [response] that Python takes for true,
    in the order of the lines, the k-th chunk made with the k-th id
    and clock reading; then the stop chunk and the terminator line if
    a done event was read, an error chunk with the text of the
    exception if one was raised, and nothing if the body just ended.
    The generator itself never raises. *)
Theorem chat_stream_forwards
    (request : ChatCompletionRequest) (payload : json) (up : upstream)
    (body : outcome string) (lines : list string) (tail : stream_end) (w : world) :
  api_generate_stream up payload = StreamReplies 200 body lines tail ->
  let vs := forwarded lines in
  let w' := ticks (List.length vs) w in
  let t := chat_stream request payload up w in
  frames t
  = (numbered (chat_delta (model request)) vs w
     ++ match ends lines tail with
        | Closed =>
            [Data (chunk (JStr EmptyString) (model request) (Some "stop") w'); DoneLine]
        | Exhausted => []
        | Faulted e =>
            [Data (chunk (JStr ("Error: " ++ str_exn e)) (model request)
                         (Some "error") w')]
        end)%list
  /\ map delta_content (numbered (chat_delta (model request)) vs w) = map Some vs
  /\ result t = Ok tt
  /\ after t = match ends lines tail with Exhausted => w' | _ => tick w' end.
Proof.
  intros Hup. cbv zeta. unfold chat_generate_stream. rewrite Hup.
  change (negb (200 =? 200)) with false. cbv iota.
  destruct (chat_loop_run (model request) lines tail w) as (Hf & Hr & Ha).
  cbv zeta in Hf, Hr, Ha. rewrite Hr.
  split; [|split; [apply chat_delta_content, forwarded_truthy|]].
  - destruct (ends lines tail); [exact Hf | exact Hf |].
    unfold error_chunk_after. cbn. now rewrite Hf, Ha, app_nil_r.
  - destruct (ends lines tail); [now split | now split |].
    unfold error_chunk_after. cbn. now rewrite Ha.
Qed.

(** X2.  What the completions generator makes of a body, whatever the
    status it came with: one text chunk for each value of [response]
    that Python takes for true, in the order of the lines, the k-th
    made with the k-th id and clock reading; then the terminator line
    if a done event was read.  An exception (a line that holds JSON but
    no object, a fault of the read) escapes from the generator after
    the chunks. *)
Theorem completions_stream_forwards
    (request : CompletionRequest) (payload : json) (up : upstream)
    (status : Z) (body : outcome string) (lines : list string) (tail : stream_end)
    (w : world) :
  api_generate_stream up payload = StreamReplies status body lines tail ->
  let vs := forwarded lines in
  let t := completions_stream request payload up w in
  frames t
  = (numbered (text_delta (c_model request)) vs w
     ++ match ends lines tail with Closed => [DoneLine] | _ => [] end)%list
  /\ result t = match ends lines tail with Faulted e => Raise e | _ => Ok tt end
  /\ after t = ticks (List.length vs) w.
Proof.
  intros Hup. cbv zeta. unfold completions_generate_stream. rewrite Hup.
  apply completions_loop_run.
Qed.

(** X3.  An answer with a status other than 200 makes the chat stream one
    error chunk: it holds the body of the answer after "Error: ", or
    the text of the exception that reading the body raised.  The lines
    of the body are not read, and the generator returns normally. *)
Theorem chat_stream_error_status
    (request : ChatCompletionRequest) (payload : json) (up : upstream)
    (status : Z) (body : outcome string) (lines : list string) (tail : stream_end)
    (w : world) :
  api_generate_stream up payload = StreamReplies status body lines tail ->
  status <> 200 ->
  let t := chat_stream request payload up w in
  frames t
  = [Data (chunk (JStr ("Error: " ++ match body with
                                     | Ok error_msg => error_msg
                                     | Raise e => str_exn e
                                     end))
                 (model request) (Some "error") w)]
  /\ result t = Ok tt
  /\ unread t = lines
  /\ after t = tick w.
Proof.
  intros Hup Hne. cbv zeta. unfold chat_generate_stream. rewrite Hup.
  apply Z.eqb_neq in Hne. rewrite Hne. cbn [negb].
  destruct body; now repeat split.
Qed.

(** X4.  Whatever the upstream does, the chat generator returns normally,
    and its output is chunks with a null [finish_reason] followed by
    nothing, by the stop chunk and the terminator line, or by one error
    chunk: an error chunk and a terminator line never occur together,
    and nothing follows either. *)
Theorem chat_stream_ends_once
    (request : ChatCompletionRequest) (payload : json) (up : upstream) (w : world) :
  let t := chat_stream request payload up w in
  result t = Ok tt
  /\ (exists pre,
        all_open pre
        /\ (frames t = pre
            \/ (exists w', frames t
                           = (pre ++ [Data (chunk (JStr EmptyString) (model request)
                                                  (Some "stop") w');
                                      DoneLine])%list)
            \/ (exists text w', frames t
                                = (pre ++ [Data (chunk (JStr text) (model request)
                                                       (Some "error") w')])%list)))
  /\ (count is_error_chunk (frames t) + count is_done_line (frames t) <= 1)%nat.
Proof.
  cbv zeta.
  assert (Hshape : result (chat_stream request payload up w) = Ok tt
            /\ exists pre,
                all_open pre
                /\ (frames (chat_stream request payload up w) = pre
                    \/ (exists w', frames (chat_stream request payload up w)
                                   = (pre ++ [Data (chunk (JStr EmptyString) (model request)
                                                          (Some "stop") w');
                                              DoneLine])%list)
                    \/ (exists text w', frames (chat_stream request payload up w)
                                        = (pre ++ [Data (chunk (JStr text) (model request)
                                                               (Some "error") w')])%list))).
  { destruct (api_generate_stream up payload) as [e | status body lines tail] eqn:Hup.
    - unfold chat_generate_stream. rewrite Hup. split; [reflexivity|].
      exists []. split; [reflexivity|]. right. right. now eexists _, _.
    - unfold chat_generate_stream. rewrite Hup.
      destruct (negb (status =? 200)).
      + destruct body; (split; [reflexivity|]); exists [];
          (split; [reflexivity|]); right; right; now eexists _, _.
      + destruct (chat_loop_run (model request) lines tail w) as (Hf & Hr & Ha).
        cbv zeta in Hf, Hr, Ha. rewrite Hr.
        destruct (ends lines tail); (split; [first [exact Hr | reflexivity]|]);
          exists (numbered (chat_delta (model request)) (forwarded lines) w);
          (split; [apply numbered_open; reflexivity|]).
        * right. left. rewrite Hf. now eexists.
        * left. rewrite Hf. apply app_nil_r.
        * right. right. unfold error_chunk_after. cbn. rewrite Hf, app_nil_r.
          now eexists _, _. }
  destruct Hshape as (Hr & pre & Hpre & Hcase).
  split; [exact Hr|]. split; [now exists pre|].
  assert (He : count is_error_chunk pre = 0%nat).
  { apply all_open_count; [|exact Hpre]. intros f Hf. now apply open_chunk_plain. }
  assert (Hd : count is_done_line pre = 0%nat).
  { apply all_open_count; [|exact Hpre]. intros f Hf. now apply open_chunk_plain. }
  destruct Hcase as [-> | [(w' & ->) | (text & w' & ->)]];
    rewrite ?count_app, He, Hd; unfold count; simpl; lia.
Qed.

End Forwarding.

(** ** The non-streaming handlers *)

Lemma builtin_not_RequestError (e : exn) : builtin e = true -> is_RequestError e = false.
Proof. destruct e; simpl; congruence. Qed.

Lemma builtin_status (e : exn) : builtin e = true -> http_status (Raises e) = 500.
Proof. destruct e; simpl; congruence. Qed.

Section Answers.

Variable json_loads : string -> decoded.
Variable uuid4_hex : nat -> string.
Variable unix_time : nat -> Z.

Local Notation chat := (chat_completions json_loads uuid4_hex unix_time).
Local Notation complete := (completions json_loads uuid4_hex unix_time).
Local Notation models := (list_models json_loads unix_time).

(** X5.  The chat and completion endpoints answer with status 200 or 500
    and no other, whatever the request and whatever the upstream does. *)
Theorem generate_status_200_or_500
    (request : ChatCompletionRequest) (crequest : CompletionRequest)
    (up : upstream) (w : world) :
  (http_status (fst (chat request up w)) = 200
   \/ http_status (fst (chat request up w)) = 500)
  /\ (http_status (fst (complete crequest up w)) = 200
      \/ http_status (fst (complete crequest up w)) = 500).
Proof.
  split.
  - unfold chat_completions.
    destruct (truthy (opt bool JBool (stream request))); [now left|].
    match goal with
    | |- context [except_Exception_500 ?r] => destruct r as [[body|e] w1]
    end; [now left | now right].
  - unfold completions.
    destruct (truthy (opt bool JBool (c_stream crequest))); [now left|].
    match goal with
    | |- context [except_Exception_500 ?r] => destruct r as [[body|e] w1]
    end; [now left | now right].
Qed.

(** X6.  The penalties of a chat request change nothing of what the handler
    does: not the payload, not the response. *)
Theorem penalties_have_no_effect
    (request : ChatCompletionRequest) (frequency presence : option float)
    (up : upstream) (w : world) :
  sent_by_chat (with_penalties request frequency presence) = sent_by_chat request
  /\ chat (with_penalties request frequency presence) up w = chat request up w.
Proof. split; reflexivity. Qed.

(** X7.  An answer with status 200 whose body is no JSON, or is JSON but no
    object, makes a non-streaming request fail with status 500; the
    detail is the text of the decoder's exception, or
    "'<type>' object has no attribute 'get'". *)
Theorem unusable_answer_is_500
    (request : ChatCompletionRequest) (crequest : CompletionRequest)
    (up : upstream) (text detail : string) (w : world) :
  truthy (opt bool JBool (stream request)) = false ->
  truthy (opt bool JBool (c_stream crequest)) = false ->
  api_generate up (sent_by_chat request) = Replies 200 text ->
  api_generate up (completion_payload crequest) = Replies 200 text ->
  answer_error (json_loads text) = Some detail ->
  fst (chat request up w) = Raises (HTTPException 500 detail)
  /\ fst (complete crequest up w) = Raises (HTTPException 500 detail).
Proof.
  intros Hs Hcs Hup Hcup Herr.
  unfold chat_completions, completions. rewrite Hs, Hcs.
  fold (sent_by_chat request). rewrite Hup, Hcup.
  unfold checked, loads. change (negb (200 =? 200)) with false. cbv iota. cbn [bind].
  destruct (json_loads text) as [v|msg]; simpl in Herr.
  - destruct v; inversion Herr; subst; split; reflexivity.
  - inversion Herr; subst. split; reflexivity.
Qed.

(** X8.  A count that is present but null is not taken for 0: with
    [prompt_eval_count] null and [eval_count] an integer or absent, the
    sum raises [TypeError] and both endpoints answer with status 500. *)
Theorem null_count_is_500
    (request : ChatCompletionRequest) (crequest : CompletionRequest)
    (up : upstream) (text : string) (kvs : list (string * json)) (c : Z) (w : world) :
  truthy (opt bool JBool (stream request)) = false ->
  truthy (opt bool JBool (c_stream crequest)) = false ->
  api_generate up (sent_by_chat request) = Replies 200 text ->
  api_generate up (completion_payload crequest) = Replies 200 text ->
  json_loads text = Decoded (JDict kvs) ->
  lookup kvs "prompt_eval_count" = Some JNull ->
  int_or_zero kvs "eval_count" = Some c ->
  let detail := "unsupported operand type(s) for +: 'NoneType' and 'int'" in
  fst (chat request up w) = Raises (HTTPException 500 detail)
  /\ fst (complete crequest up w) = Raises (HTTPException 500 detail).
Proof.
  intros Hs Hcs Hup Hcup Hl Hp Hc detail.
  assert (Hu : usage_of (JDict kvs) = Raise (TypeError detail)).
  { unfold usage_of, get, int_or_zero in *. rewrite Hp.
    destruct (lookup kvs "eval_count") as [[]|]; try discriminate; reflexivity. }
  unfold chat_completions, completions. rewrite Hs, Hcs.
  fold (sent_by_chat request). rewrite Hup, Hcup.
  unfold checked, loads. change (negb (200 =? 200)) with false. cbv iota.
  cbn [bind]. rewrite Hl. cbn [bind]. rewrite Hu. split; reflexivity.
Qed.

(** X9.  What a non-streaming response says besides its usage: the model of
    the request, the upstream's [response] as the content (the empty
    text when the key is absent), the role "assistant" and the
    [finish_reason] "stop". *)
Theorem answer_content
    (request : ChatCompletionRequest) (crequest : CompletionRequest)
    (up : upstream) (text : string) (kvs : list (string * json)) (p c : Z)
    (w : world) :
  truthy (opt bool JBool (stream request)) = false ->
  truthy (opt bool JBool (c_stream crequest)) = false ->
  api_generate up (sent_by_chat request) = Replies 200 text ->
  api_generate up (completion_payload crequest) = Replies 200 text ->
  json_loads text = Decoded (JDict kvs) ->
  int_or_zero kvs "prompt_eval_count" = Some p ->
  int_or_zero kvs "eval_count" = Some c ->
  let content := match lookup kvs "response" with
                 | Some v => v
                 | None => JStr EmptyString
                 end in
  exists body choice body' choice',
    fst (chat request up w) = Returns body
    /\ at_path body ["object"] = Some (JStr "chat.completion")
    /\ at_path body ["model"] = Some (JStr (model request))
    /\ first_choice body = Some choice
    /\ at_path choice ["message"; "role"] = Some (JStr "assistant")
    /\ at_path choice ["message"; "content"] = Some content
    /\ at_path choice ["finish_reason"] = Some (JStr "stop")
    /\ fst (complete crequest up w) = Returns body'
    /\ at_path body' ["object"] = Some (JStr "text_completion")
    /\ at_path body' ["model"] = Some (JStr (c_model crequest))
    /\ first_choice body' = Some choice'
    /\ at_path choice' ["text"] = Some content
    /\ at_path choice' ["finish_reason"] = Some (JStr "stop").
Proof.
  intros Hs Hcs Hup Hcup Hl Hp Hc content.
  assert (Hu : exists usage, usage_of (JDict kvs) = Ok usage).
  { unfold usage_of, get, int_or_zero in *.
    destruct (lookup kvs "prompt_eval_count") as [[]|]; try discriminate;
      destruct (lookup kvs "eval_count") as [[]|]; try discriminate;
      eexists; reflexivity. }
  destruct Hu as [usage Hu].
  unfold chat_completions, completions. rewrite Hs, Hcs.
  fold (sent_by_chat request). rewrite Hup, Hcup.
  unfold checked, loads. change (negb (200 =? 200)) with false. cbv iota.
  cbn [bind]. rewrite Hl. cbn [bind]. rewrite Hu. cbn [bind get].
  eexists _, _, _, _. repeat split.
Qed.

(** *** The model listing *)

Lemma model_entries_listed (ms names : list json) :
  names_of ms = Some names ->
  forall w,
    model_entries unix_time ms w
    = (Ok (listed unix_time names (clock_reads w)),
       {| ids_drawn := ids_drawn w;
          clock_reads := (clock_reads w + List.length names)%nat |}).
Proof.
  revert names. induction ms as [|m ms IH]; intros names Hn w; simpl in *.
  - inversion Hn; subst. simpl. destruct w. simpl. now rewrite Nat.add_0_r.
  - destruct m; try discriminate. unfold getitem.
    destruct (lookup kvs "name") as [name|]; [|discriminate].
    destruct (names_of ms) as [rest|]; [|discriminate].
    inversion Hn; subst. rewrite (IH rest eq_refl).
    unfold read_clock, now. cbn [ids_drawn clock_reads List.length listed].
    replace (S (clock_reads w) + List.length rest)%nat
      with (clock_reads w + S (List.length rest))%nat by lia.
    reflexivity.
Qed.

Lemma model_entries_raises (ms : list json) :
  forall w e w', model_entries unix_time ms w = (Raise e, w') -> builtin e = true.
Proof.
  induction ms as [|m ms IH]; intros w e w' H; simpl in H; [discriminate|].
  destruct (getitem m "name") as [name|e0] eqn:Hg.
  - destruct (model_entries unix_time ms (read_clock w)) as [[entries|e1] w1] eqn:Hm;
      inversion H; subst. exact (IH _ _ _ Hm).
  - inversion H; subst. unfold getitem in Hg.
    destruct m; try (inversion Hg; reflexivity).
    destruct (lookup kvs "name"); inversion Hg. reflexivity.
Qed.

(** X10.  A status other than 200 from [GET /api/tags] reaches the client
    unchanged, with the detail "Failed to fetch models from Ollama". *)
Theorem list_models_passes_status_on
    (up : upstream) (status : Z) (text : string) (w : world) :
  api_tags up = Replies status text ->
  status <> 200 ->
  models up w
  = (Raises (HTTPException status "Failed to fetch models from Ollama"), w)
  /\ http_status (fst (models up w)) = status.
Proof.
  intros Hup Hne. unfold list_models, checked. rewrite Hup.
  apply Z.eqb_neq in Hne. rewrite Hne. now split.
Qed.

(** X11.  When the upstream's listing is an object whose [models] (an empty
    list when the key is absent) is a list of objects each with a
    [name], the answer lists one entry per model, in the same order,
    with the name as [id], the [object] "model" and the owner "ollama";
    the clock is read once per model. *)
Theorem list_models_lists
    (up : upstream) (text : string) (kvs : list (string * json))
    (ms names : list json) (w : world) :
  api_tags up = Replies 200 text ->
  json_loads text = Decoded (JDict kvs) ->
  match lookup kvs "models" with Some v => v | None => JList [] end = JList ms ->
  names_of ms = Some names ->
  models up w
  = (Returns (JDict [("object", JStr "list");
                     ("data", JList (listed unix_time names (clock_reads w)))]),
     {| ids_drawn := ids_drawn w;
        clock_reads := (clock_reads w + List.length names)%nat |})
  /\ List.length (listed unix_time names (clock_reads w)) = List.length ms
  /\ map (fun entry => at_path entry ["id"]) (listed unix_time names (clock_reads w))
     = map Some names.
Proof.
  intros Hup Hl Hms Hn. split; [|split].
  - unfold list_models, checked, loads. rewrite Hup.
    change (negb (200 =? 200)) with false. cbv iota. cbn [bind]. rewrite Hl.
    cbn [bind get]. rewrite Hms. cbn [bind iterate].
    now rewrite (model_entries_listed ms names Hn w).
  - clear Hms. revert names Hn. generalize (clock_reads w).
    induction ms as [|m ms IH]; intros k names Hn; simpl in Hn.
    + inversion Hn. reflexivity.
    + destruct m; try discriminate.
      destruct (lookup kvs0 "name"); [|discriminate].
      destruct (names_of ms) as [rest|] eqn:Hrest; [|discriminate].
      inversion Hn; subst. simpl. f_equal. exact (IH (S k) rest eq_refl).
  - generalize (clock_reads w). clear Hn.
    induction names as [|name rest IH]; intros k; simpl; [reflexivity|].
    now rewrite IH.
Qed.

(** X12.  Once the upstream has answered [GET /api/tags] with status 200, the
    listing answers with status 200 or, when the body cannot be used
    (no JSON, no object, a [models] that is no list, an entry without a
    [name]), with the server's 500: never with 503. *)
Theorem list_models_answered
    (up : upstream) (text : string) (w : world) :
  api_tags up = Replies 200 text ->
  http_status (fst (models up w)) = 200 \/ http_status (fst (models up w)) = 500.
Proof.
  intros Hup. unfold list_models, checked, loads. rewrite Hup.
  change (negb (200 =? 200)) with false. cbv iota. cbn [bind].
  assert (Hraise : forall e (w1 : world),
             builtin e = true ->
             http_status
               (fst (if is_RequestError e
                     then (Raises (HTTPException 503
                                     ("Ollama service unavailable: " ++ str_exn e)), w1)
                     else (Raises e, w1))) = 500).
  { intros e w1 He. rewrite (builtin_not_RequestError e He). now apply builtin_status. }
  destruct (json_loads text) as [v|msg]; cbn [bind]; [|right; now apply Hraise].
  destruct (get v "models" (JList [])) as [found|e] eqn:Hg; cbn [bind].
  - destruct (iterate found) as [items|e] eqn:Hi.
    + destruct (model_entries unix_time items w) as [[entries|e] w1] eqn:Hm.
      * now left.
      * right. apply Hraise. exact (model_entries_raises _ _ _ _ Hm).
    + right. apply Hraise. unfold iterate in Hi.
      destruct found; inversion Hi; reflexivity.
  - right. apply Hraise. unfold get in Hg. destruct v; inversion Hg; reflexivity.
Qed.

End Answers.

(** ** The health check *)

(** X13.  The health check never fails: it answers with status 200 whatever
    the upstream does.  Its body says "healthy" exactly when the
    upstream answered with status 200 and "unhealthy" exactly when the
    call raised; with any other status the body is null and says
    neither. *)
Theorem health_check_reports (api_version : http_reply) :
  exists body,
    health_check api_version = Returns body
    /\ http_status (health_check api_version) = 200
    /\ (at_path body ["status"] = Some (JStr "healthy")
        <-> exists text, api_version = Replies 200 text)
    /\ (at_path body ["status"] = Some (JStr "unhealthy")
        <-> exists e, api_version = Fails e)
    /\ (forall e, api_version = Fails e -> at_path body ["error"] = Some (JStr (str_exn e)))
    /\ (forall status text,
          api_version = Replies status text -> status <> 200 -> body = JNull).
Proof.
  destruct api_version as [e | status text]; simpl.
  - eexists. split; [reflexivity|]. split; [reflexivity|]. repeat split.
    + discriminate.
    + intros [text H]. discriminate.
    + intros _. now exists e.
    + intros e0 H. now inversion H.
    + intros status text H. discriminate.
  - destruct (Z.eqb_spec status 200) as [->|Hne].
    + eexists. split; [reflexivity|]. split; [reflexivity|]. repeat split.
      * intros _. now exists text.
      * discriminate.
      * intros [e H]. discriminate.
      * intros e H. discriminate.
      * intros status text0 H Hs. inversion H; subst. contradiction.
    + eexists. split; [reflexivity|]. split; [reflexivity|]. repeat split.
      * discriminate.
      * intros [text0 H]. inversion H; subst. contradiction.
      * discriminate.
      * intros [e H]. discriminate.
      * intros e H. discriminate.
Qed.

(** ** More on the prompt builder *)

Lemma prompt_closed_form (ms : list Message) :
  convert_messages_to_ollama_prompt ms = add_messages EmptyString ms ++ "Assistant:".
Proof.
  unfold convert_messages_to_ollama_prompt.
  rewrite turn_ended_not_assistant
    by (apply add_messages_turn_ended; left; reflexivity).
  reflexivity.
Qed.

Lemma add_messages_app (a b : list Message) :
  forall prompt, add_messages prompt (a ++ b)%list = add_messages (add_messages prompt a) b.
Proof. induction a as [|m a IH]; intros prompt; simpl; [reflexivity | apply IH]. Qed.

Lemma add_messages_from (ms : list Message) :
  forall prompt, add_messages prompt ms = prompt ++ add_messages EmptyString ms.
Proof.
  intros prompt.
  pose proof (add_messages_fold ms prompt EmptyString) as H1.
  pose proof (add_messages_fold ms EmptyString EmptyString) as H2.
  rewrite append_nil_r in H1, H2. simpl in H2. now rewrite H1, H2.
Qed.

(** X14.  Messages with a role other than "system", "user" and "assistant"
    leave no trace: the prompt is the prompt of the other messages. *)
Theorem unknown_roles_leave_no_trace (ms : list Message) :
  convert_messages_to_ollama_prompt (filter known_role ms)
  = convert_messages_to_ollama_prompt ms.
Proof.
  rewrite !prompt_closed_form. f_equal.
  induction ms as [|m ms IH]; simpl; [reflexivity|].
  rewrite (add_messages_from ms (message_text m)).
  destruct (known_role m) eqn:Hk; simpl.
  - rewrite (add_messages_from (filter known_role ms) (message_text m)).
    now rewrite IH.
  - unfold known_role in Hk. unfold message_text.
    destruct (role m =? "system")%string; [discriminate|].
    destruct (role m =? "user")%string; [discriminate|].
    destruct (role m =? "assistant")%string; [discriminate|].
    exact IH.
Qed.

(** X15.  The prompt of a conversation continued: the turns of the earlier
    messages, then the prompt of the later ones. *)
Theorem prompt_of_continuation (earlier later : list Message) :
  convert_messages_to_ollama_prompt (earlier ++ later)%list
  = add_messages EmptyString earlier ++ convert_messages_to_ollama_prompt later.
Proof.
  rewrite !prompt_closed_form, add_messages_app.
  rewrite (add_messages_from later (add_messages EmptyString earlier)).
  apply append_assoc.
Qed.

(** X16.  The content of a message is copied as it is: a user message whose
    content holds a blank line and "Assistant: " gives the same prompt
    as a user message followed by an assistant message. *)
Theorem prompt_does_not_escape (before after : list Message) (a b : string) :
  convert_messages_to_ollama_prompt
    (before ++ {| role := "user";
                  content := a ++ nl ++ nl ++ "Assistant: " ++ b |} :: after)%list
  = convert_messages_to_ollama_prompt
      (before ++ {| role := "user"; content := a |}
              :: {| role := "assistant"; content := b |} :: after)%list.
Proof.
  rewrite !prompt_closed_form, !add_messages_app. f_equal.
  cbn [add_messages]. f_equal. rewrite append_assoc. f_equal.
  unfold message_text. simpl. rewrite !append_assoc. reflexivity.
Qed.

(** ** The further properties at concrete inputs *)

Lemma chat_stream_forwards_witness :
  let t := sample_chat_stream (chat_request true) (sent_by_chat (chat_request true))
             (streaming [line_hi; "oops"; line_hi; line_five; line_done] EOF) w0 in
  frames t
  = [Data (sample_chunk (JStr "Hi") "llama3" None w0);
     Data (sample_chunk (JStr "Hi") "llama3" None (tick w0));
     Data (sample_chunk (JStr "Error: 'int' object has no attribute 'get'") "llama3"
                        (Some "error") (tick (tick w0)))]
  /\ result t = Ok tt.
Proof.
  destruct (chat_stream_forwards sample_loads sample_uuid sample_time
              (chat_request true) (sent_by_chat (chat_request true))
              (streaming [line_hi; "oops"; line_hi; line_five; line_done] EOF)
              (Ok EmptyString) [line_hi; "oops"; line_hi; line_five; line_done] EOF w0
              eq_refl)
    as (Hf & _ & Hr & _).
  split; [exact Hf | exact Hr].
Defined.

Lemma completions_stream_forwards_witness :
  let t := sample_completions_stream (completion_request true)
             (completion_payload (completion_request true))
             (answering 404 line_five) w0 in
  frames t = [] /\ result t = Raise (AttributeError "'int' object has no attribute 'get'").
Proof.
  destruct (completions_stream_forwards sample_loads sample_uuid sample_time
              (completion_request true) (completion_payload (completion_request true))
              (answering 404 line_five) 404 (Ok line_five) [line_five] EOF w0 eq_refl)
    as (Hf & Hr & _).
  split; [exact Hf | exact Hr].
Defined.

Lemma chat_stream_error_status_witness :
  let t := sample_chat_stream (chat_request true) (sent_by_chat (chat_request true))
             (answering 404 "model not found") w0 in
  frames t = [Data (sample_chunk (JStr "Error: model not found") "llama3"
                                 (Some "error") w0)]
  /\ unread t = ["model not found"].
Proof.
  destruct (chat_stream_error_status sample_loads sample_uuid sample_time
              (chat_request true) (sent_by_chat (chat_request true))
              (answering 404 "model not found") 404 (Ok "model not found")
              ["model not found"] EOF w0 eq_refl ltac:(discriminate))
    as (Hf & _ & Hu & _).
  split; [exact Hf | exact Hu].
Defined.

Lemma unusable_answer_is_500_witness :
  fst (sample_chat (chat_request false) (answering 200 line_five) w0)
  = Raises (HTTPException 500 "'int' object has no attribute 'get'")
  /\ fst (sample_completions (completion_request false) (answering 200 line_five) w0)
     = Raises (HTTPException 500 "'int' object has no attribute 'get'").
Proof.
  exact (unusable_answer_is_500 sample_loads sample_uuid sample_time
           (chat_request false) (completion_request false)
           (answering 200 line_five) line_five "'int' object has no attribute 'get'" w0
           eq_refl eq_refl eq_refl eq_refl eq_refl).
Defined.

Lemma null_count_is_500_witness :
  fst (chat_completions listing_loads sample_uuid sample_time (chat_request false)
         (answering 200 text_null_count) w0)
  = Raises (HTTPException 500 "unsupported operand type(s) for +: 'NoneType' and 'int'")
  /\ fst (completions listing_loads sample_uuid sample_time (completion_request false)
            (answering 200 text_null_count) w0)
     = Raises (HTTPException 500
                 "unsupported operand type(s) for +: 'NoneType' and 'int'").
Proof.
  exact (null_count_is_500 listing_loads sample_uuid sample_time
           (chat_request false) (completion_request false)
           (answering 200 text_null_count) text_null_count
           [("prompt_eval_count", JNull)] 0 w0
           eq_refl eq_refl eq_refl eq_refl eq_refl eq_refl eq_refl).
Defined.

Lemma answer_content_witness :
  exists body choice,
    fst (chat_completions listing_loads sample_uuid sample_time (chat_request false)
           (answering 200 line_hi) w0) = Returns body
    /\ first_choice body = Some choice
    /\ at_path choice ["message"; "content"] = Some (JStr "Hi").
Proof.
  destruct (answer_content listing_loads sample_uuid sample_time
              (chat_request false) (completion_request false)
              (answering 200 line_hi) line_hi [("response", JStr "Hi")] 0 0 w0
              eq_refl eq_refl eq_refl eq_refl eq_refl eq_refl eq_refl)
    as (body & choice & _ & _ & Hb & _ & _ & Hc & _ & Hcontent & _).
  now exists body, choice.
Defined.

Lemma list_models_passes_status_on_witness :
  http_status (fst (list_models listing_loads sample_time
                      (answering 404 "not found") w0)) = 404.
Proof.
  exact (proj2 (list_models_passes_status_on listing_loads sample_time
                  (answering 404 "not found") 404 "not found" w0
                  eq_refl ltac:(discriminate))).
Defined.

Lemma list_models_lists_witness :
  fst (list_models listing_loads sample_time (answering 200 text_tags) w0)
  = Returns (JDict [("object", JStr "list");
                    ("data", JList (listed sample_time [JStr "llama3:latest";
                                                        JStr "phi3:mini"] 0))]).
Proof.
  destruct (list_models_lists listing_loads sample_time
              (answering 200 text_tags) text_tags
              [("models", JList [JDict [("name", JStr "llama3:latest")];
                                 JDict [("name", JStr "phi3:mini")]])]
              [JDict [("name", JStr "llama3:latest")]; JDict [("name", JStr "phi3:mini")]]
              [JStr "llama3:latest"; JStr "phi3:mini"] w0
              eq_refl eq_refl eq_refl eq_refl)
    as (H & _).
  now rewrite H.
Defined.

Lemma list_models_answered_witness :
  fst (list_models listing_loads sample_time (answering 200 text_nameless) w0)
  = Raises (KeyError "'name'")
  /\ (http_status (fst (list_models listing_loads sample_time
                          (answering 200 text_nameless) w0)) = 200
      \/ http_status (fst (list_models listing_loads sample_time
                             (answering 200 text_nameless) w0)) = 500).
Proof.
  split; [reflexivity|].
  exact (list_models_answered listing_loads sample_time
           (answering 200 text_nameless) text_nameless w0 eq_refl).
Defined.
